(** * Backtest_Simulation: TWAP order slicing, execution simulation, metrics

    A shallow embedding of [strategy.py] ([TWAPStrategy]), [backtest.py]
    ([Backtester]), the wiring of [main.py] and the price walk of
    [data_generator.py], together with the part of the pandas/numpy
    behaviour these files rely on.

    Numbers.  The source computes with IEEE doubles.  In [num] a finite
    number is an exact rational ([Qc]): the arithmetic on [num] gives the
    real-number result where the source gives the nearest double, and it
    never overflows.  The special values the source works with are kept:
    [NaN] is the "undefined" marker of the execution columns ([np.nan]),
    and a numpy division by zero yields an infinity or [NaN] instead of
    raising.  Signed zeros are not modelled.  What is stated on [num] is
    what does not depend on rounding: which cells are written and which
    exceptions are raised, comparisons between inputs, and values given by
    the expression the source evaluates.  Where rounding decides, the
    expression is evaluated on binary64 numbers ([Binary64]); where the
    source adds int64 numbers, the wrap-around is written out
    ([int64_sum]).

    Tables.  A [DataFrame] is an index of integer row labels and a finite
    map from column names to columns.  Row labels are looked up by value
    ([.at] is label based); writing through [.at] to a label that is not in
    the index enlarges the frame, as pandas does.  The model is that of
    frames with unique labels, such as the default index [0 .. N-1].

    Effects.  The loops of [generate_orders] and [run] are statements of a
    state and exception monad over the frame they update.  Frames are
    mutable objects passed by reference: the methods are also given on a
    store of frame objects, where a copy allocates and a write names the
    object it goes to. *)

From Stdlib Require Import QArith Qcanon Ascii String.
From Stdlib Require Floats.SpecFloat.
From stdpp Require Import gmap strings list fin_maps numbers.

Local Open Scope Qc_scope.

(** ** Numbers *)

Inductive num : Type :=
  | Fin (q : Qc)
  | PInf
  | NInf
  | NaN.

Global Instance num_eq_dec : EqDecision num.
Proof. solve_decision. Defined.

Definition isnan (x : num) : bool :=
  match x with NaN => true | _ => false end.

Definition notna (x : num) : bool := negb (isnan x).

Definition fneg (x : num) : num :=
  match x with
  | Fin a => Fin (- a)
  | PInf => NInf
  | NInf => PInf
  | NaN => NaN
  end.

(** Addition, subtraction, multiplication and division are exact on finite
    numbers: [Fin a + Fin b] is the rational [a + b], where the source gets
    the double nearest to it. *)
Definition fadd (x y : num) : num :=
  match x, y with
  | NaN, _ | _, NaN => NaN
  | Fin a, Fin b => Fin (a + b)
  | PInf, NInf | NInf, PInf => NaN
  | PInf, _ | _, PInf => PInf
  | NInf, _ | _, NInf => NInf
  end.

Definition fsub (x y : num) : num := fadd x (fneg y).

(** The infinity with the sign of [a], [NaN] for [a = 0]. *)
Definition signed_inf (a : Qc) : num :=
  if decide (0 < a) then PInf
  else if decide (a < 0) then NInf
  else NaN.

Definition fmul (x y : num) : num :=
  match x, y with
  | NaN, _ | _, NaN => NaN
  | Fin a, Fin b => Fin (a * b)
  | Fin a, PInf | PInf, Fin a => signed_inf a
  | Fin a, NInf | NInf, Fin a => signed_inf (- a)
  | PInf, PInf | NInf, NInf => PInf
  | PInf, NInf | NInf, PInf => NInf
  end.

(** numpy's true division: a zero divisor gives an infinity (or [NaN] for
    [0 / 0]) and a warning, never an exception.  Python's own float division
    would raise, but the source only divides Python floats after testing the
    divisor to be positive. *)
Definition fdiv (x y : num) : num :=
  match x, y with
  | NaN, _ | _, NaN => NaN
  | Fin a, Fin b => if decide (b = 0) then signed_inf a else Fin (a / b)
  | Fin _, _ => Fin 0
  | PInf, Fin b => if decide (b < 0) then NInf else PInf
  | NInf, Fin b => if decide (b < 0) then PInf else NInf
  | _, _ => NaN
  end.

(** [x < y]; every comparison with [NaN] is false. *)
Definition flt (x y : num) : bool :=
  match x, y with
  | NaN, _ | _, NaN => false
  | Fin a, Fin b => bool_decide (a < b)
  | Fin _, PInf => true
  | Fin _, NInf => false
  | PInf, _ => false
  | NInf, NInf => false
  | NInf, _ => true
  end.

Definition fgt (x y : num) : bool := flt y x.

(** Python's builtin [min(a, b)]: the first argument unless the second is
    strictly smaller. *)
Definition py_min (a b : num) : num := if flt b a then b else a.

Definition of_Z (n : Z) : num := Fin (Qc_of_Z n).

(** ** Series reductions (pandas, [skipna=True]) *)

(** [Series.sum()] of a float column: the NaN entries are left out; the
    empty sum is 0.  The sum is exact, so the order in which numpy adds the
    entries plays no role here. *)
Definition series_sum (s : list num) : num :=
  foldr fadd (Fin 0) (filter (λ x, notna x = true) s).

(** [Series.count()]: the number of entries that are not NaN. *)
Definition series_count (s : list num) : nat :=
  length (filter (λ x, notna x = true) s).

(** [Series.mean()]: sum over count of the entries that are not NaN, [NaN]
    when there is none; exact like the sum. *)
Definition series_mean (s : list num) : num :=
  fdiv (series_sum s) (of_Z (Z.of_nat (series_count s))).

(** [s1 * s2] for two columns of one frame (equal indexes): elementwise. *)
Definition series_mul (s1 s2 : list num) : list num := zip_with fmul s1 s2.

(** ** int64 columns

    A column of integers, such as the volumes drawn by
    [np.random.poisson], has dtype int64.  Its cells are represented by the
    numbers of the same value.  The one int64 operation of the source is
    [volume.sum()] in the VWAP benchmark: numpy adds in 64-bit two's
    complement, so the sum wraps around.  [series_sum] is the float sum; it
    is the int64 sum as long as nothing wraps ([int64_sum_no_wrap] below),
    and the statements about the VWAP benchmark assume volumes for which
    that is the case. *)
Definition wrap64 (z : Z) : Z := ((z + 2 ^ 63) mod 2 ^ 64 - 2 ^ 63)%Z.

Definition int64_sum (zs : list Z) : Z :=
  foldl (λ acc z, wrap64 (acc + z)) 0%Z zs.

Definition Z_sum (zs : list Z) : Z := foldr Z.add 0%Z zs.

(** Boolean-mask selection: the entries whose mask bit is set. *)
Fixpoint mask_select {A} (m : list bool) (l : list A) : list A :=
  match m, l with
  | b :: m', x :: l' => if b then x :: mask_select m' l' else mask_select m' l'
  | _, _ => []
  end.

(** ** Exceptions and results *)

Inductive key : Type :=
  | Col (c : string)
  | Row (idx : Z).

Inductive exn : Type :=
  | KeyError (k : key).

Inductive res (A : Type) : Type :=
  | Raise (e : exn)
  | Return (a : A).
Arguments Raise {A} e.
Arguments Return {A} a.

Global Instance res_ret : MRet res := λ A a, Return a.
Global Instance res_bind : MBind res := λ A B f r,
  match r with
  | Raise e => Raise e
  | Return a => f a
  end.

Global Instance key_eq_dec : EqDecision key.
Proof. solve_decision. Defined.
Global Instance exn_eq_dec : EqDecision exn.
Proof. solve_decision. Defined.
Global Instance res_eq_dec {A} `{EqDecision A} : EqDecision (res A).
Proof. solve_decision. Defined.

(** ** Data frames *)

Record DataFrame : Type := mkDF {
  index : list Z;
  columns : gmap string (list num)
}.

(** Position of a row label in an index: [Index.get_loc] on an index whose
    labels are unique, as the default index is.  The statements below that
    depend on it assume unique labels ([wf_frame]). *)
Fixpoint get_loc (idx : Z) (ix : list Z) : option nat :=
  match ix with
  | [] => None
  | j :: ix' => if decide (j = idx) then Some 0%nat else S <$> get_loc idx ix'
  end.

(** [df[col]] *)
Definition getitem (df : DataFrame) (col : string) : res (list num) :=
  match columns df !! col with
  | Some s => Return s
  | None => Raise (KeyError (Col col))
  end.

(** [df[col] = v] with a scalar [v]: the column becomes constant [v],
    replacing a column of that name or adding one. *)
Definition setitem_scalar (df : DataFrame) (col : string) (v : num) : DataFrame :=
  mkDF (index df) (<[col := replicate (length (index df)) v]> (columns df)).

(** [df.at[idx, col]] read: the column is looked up first, then the label. *)
Definition at_get (df : DataFrame) (idx : Z) (col : string) : res num :=
  match columns df !! col with
  | None => Raise (KeyError (Col col))
  | Some s =>
      match get_loc idx (index df) with
      | None => Raise (KeyError (Row idx))
      | Some i => Return (default NaN (s !! i))
      end
  end.

(** Setting with enlargement, the fallback of [.at] on a missing key: a new
    row is appended with [NaN] in every column, a new column is all [NaN]. *)
Definition add_row (df : DataFrame) (idx : Z) : DataFrame :=
  mkDF (index df ++ [idx]) ((λ s, s ++ [NaN]) <$> columns df).

Definition add_column (df : DataFrame) (col : string) : DataFrame :=
  mkDF (index df) (<[col := replicate (length (index df)) NaN]> (columns df)).

Definition ensure_row (df : DataFrame) (idx : Z) : DataFrame :=
  match get_loc idx (index df) with
  | Some _ => df
  | None => add_row df idx
  end.

Definition ensure_column (df : DataFrame) (col : string) : DataFrame :=
  match columns df !! col with
  | Some _ => df
  | None => add_column df col
  end.

(** [df.at[idx, col] = v] *)
Definition at_set (df : DataFrame) (idx : Z) (col : string) (v : num) : DataFrame :=
  let df' := ensure_column (ensure_row df idx) col in
  match get_loc idx (index df') with
  | Some i => mkDF (index df') (alter (λ s, <[i := v]> s) col (columns df'))
  | None => df'
  end.

(** [df.iterrows()]: the rows in index order, each a map from the column
    names to the row's entries. *)
Definition row_at (df : DataFrame) (i : nat) : gmap string num :=
  omap (λ s : list num, s !! i) (columns df).

Definition iterrows (df : DataFrame) : list (Z * gmap string num) :=
  imap (λ i idx, (idx, row_at df i)) (index df).

(** [row[col]] on a row yielded by [iterrows]. *)
Definition row_get (row : gmap string num) (col : string) : res num :=
  match row !! col with
  | Some v => Return v
  | None => Raise (KeyError (Col col))
  end.

(** [df[mask]]: the rows whose mask bit is set, labels kept. *)
Definition select_rows (mask : list bool) (df : DataFrame) : DataFrame :=
  mkDF (mask_select mask (index df)) (mask_select mask <$> columns df).

(** [df.dropna(subset=[col])] *)
Definition dropna (df : DataFrame) (col : string) : res DataFrame :=
  s ← getitem df col;
  Return (select_rows (notna <$> s) df).

(** [df.empty]: no rows or no columns. *)
Definition empty_frame (df : DataFrame) : bool :=
  bool_decide (index df = []) || bool_decide (columns df = ∅).

(** Every column is as long as the index, and labels are unique. *)
Definition wf_frame (df : DataFrame) : Prop :=
  NoDup (index df) ∧
  map_Forall (λ _ s, length s = length (index df)) (columns df).

Global Instance wf_frame_dec df : Decision (wf_frame df).
Proof. unfold wf_frame. apply _. Defined.

(** ** Statements on a frame

    The loops of [generate_orders] and [run] update one frame in place and
    may raise: a state and exception monad over that frame.  When a
    statement raises, the frame is left as it was at that point. *)
Definition M (A : Type) : Type := DataFrame → res A * DataFrame.

Global Instance M_ret : MRet M := λ A a md, (Return a, md).
Global Instance M_bind : MBind M := λ A B f c md,
  match c md with
  | (Raise e, md') => (Raise e, md')
  | (Return a, md') => f a md'
  end.

Definition lift_res {A} (r : res A) : M A := λ md, (r, md).
Definition read_at (idx : Z) (col : string) : M num :=
  λ md, (at_get md idx col, md).
Definition write_at (idx : Z) (col : string) (v : num) : M unit :=
  λ md, (Return (), at_set md idx col v).

Fixpoint for_each {A} (l : list A) (body : A → M unit) : M unit :=
  match l with
  | [] => mret ()
  | x :: l' => _ ← body x; for_each l' body
  end.

(** The outcome of a block of statements whose value is the frame itself. *)
Definition result_frame {A} (c : M A) (df : DataFrame) : res DataFrame :=
  match c df with
  | (Raise e, _) => Raise e
  | (Return _, df') => Return df'
  end.

(** ** strategy.py: [TWAPStrategy] *)

Record TWAPStrategy : Type := mkTWAP {
  total_order_quantity : num;
  start_index : Z;
  end_index : Z
}.

(** Python's [range(a, b)]. *)
Definition py_range (a b : Z) : list Z := seqZ a (b - a).

Definition n_slices (st : TWAPStrategy) : Z :=
  (end_index st - start_index st + 1)%Z.

Definition qty_per_slice (st : TWAPStrategy) : num :=
  if decide (0 < n_slices st)%Z
  then fdiv (total_order_quantity st) (of_Z (n_slices st))
  else Fin 0.

Definition generate_orders (st : TWAPStrategy) (market_data : DataFrame)
    : res DataFrame :=
  let df_orders := setitem_scalar market_data "order_quantity" (Fin 0) in
  result_frame
    (for_each (py_range (start_index st) (end_index st + 1))
       (λ idx, write_at idx "order_quantity" (qty_per_slice st)))
    df_orders.

(** ** backtest.py: [Backtester] *)

Record Backtester : Type := mkBacktester {
  market_data : DataFrame;
  slippage_factor : num
}.

(** [Backtester.__init__]: the argument is copied, the copy gets the three
    execution columns. *)
Definition Backtester_init (md : DataFrame) (slippage : num) : Backtester :=
  let md := setitem_scalar md "executed_quantity" (Fin 0) in
  let md := setitem_scalar md "executed_price" NaN in
  let md := setitem_scalar md "expected_price" NaN in
  mkBacktester md slippage.

(** The body of the loop of [run], for one row of the schedule. *)
Definition run_row (slippage : num) (r : Z * gmap string num) : M unit :=
  let '(idx, row) := r in
  order_qty ← lift_res (row_get row "order_quantity");
  if fgt order_qty (Fin 0) then
    market_volume ← read_at idx "volume";
    let possible_fill := py_min order_qty market_volume in
    price ← read_at idx "price";
    _ ← write_at idx "expected_price" price;
    price ← read_at idx "price";
    let executed_p := fmul price (fadd (Fin 1) slippage) in
    _ ← write_at idx "executed_price" executed_p;
    write_at idx "executed_quantity" possible_fill
  else mret ().

(** [Backtester.run]: the outcome (the working frame itself, or the
    exception) and the object afterwards. *)
Definition run (self : Backtester) (df_orders : DataFrame)
    : res DataFrame * Backtester :=
  match for_each (iterrows df_orders) (run_row (slippage_factor self))
                 (market_data self) with
  | (Raise e, md) => (Raise e, mkBacktester md (slippage_factor self))
  | (Return _, md) => (Return md, mkBacktester md (slippage_factor self))
  end.

(** [str.upper] on the ASCII range. *)
Definition upper_ascii (c : ascii) : ascii :=
  let n := N_of_ascii c in
  if ((97 <=? n) && (n <=? 122))%N then ascii_of_N (n - 32) else c.

Fixpoint upper (s : string) : string :=
  match s with
  | EmptyString => EmptyString
  | String c s' => String (upper_ascii c) (upper s')
  end.

Record metrics : Type := mkMetrics {
  execution_cost : option num;
  slippage : option num;
  fill_rate : num
}.

Global Instance metrics_eq_dec : EqDecision metrics.
Proof. solve_decision. Defined.

(** Lines 85-91 of [calculate_metrics]: the benchmark price. *)
Definition benchmark_price (md : DataFrame) (benchmark_type : string) : res num :=
  if decide (upper benchmark_type = "VWAP") then
    p ← getitem md "price";
    v ← getitem md "volume";
    v' ← getitem md "volume";
    mret (fdiv (series_sum (series_mul p v)) (series_sum v'))
  else
    p ← getitem md "price";
    mret (series_mean p).

(** Lines 68-69: the rows with a defined executed price and a positive
    executed quantity. *)
Definition executed_rows (md : DataFrame) : res DataFrame :=
  rows ← dropna md "executed_price";
  q ← getitem rows "executed_quantity";
  mret (select_rows ((λ x, fgt x (Fin 0)) <$> q) rows).

Definition calculate_metrics (self : Backtester) (benchmark_type : string)
    : res metrics :=
  let md := market_data self in
  rows ← executed_rows md;
  if empty_frame rows then
    mret (mkMetrics None None (Fin 0))
  else
    qty ← getitem rows "executed_quantity";
    let total_executed_quantity := series_sum qty in
    oq ← getitem md "order_quantity";
    let total_order_quantity := series_sum oq in
    let fill_rate :=
      if fgt total_order_quantity (Fin 0)
      then fdiv total_executed_quantity total_order_quantity
      else Fin 0 in
    benchmark ← benchmark_price md benchmark_type;
    ep ← getitem rows "executed_price";
    qty ← getitem rows "executed_quantity";
    let exec_value := series_sum (series_mul ep qty) in
    let avg_exec_price := fdiv exec_value total_executed_quantity in
    let execution_cost := fsub avg_exec_price benchmark in
    xp ← getitem rows "expected_price";
    qty ← getitem rows "executed_quantity";
    let expected_value := series_sum (series_mul xp qty) in
    let avg_expected_price := fdiv expected_value total_executed_quantity in
    let slippage := fsub avg_exec_price avg_expected_price in
    mret (mkMetrics (Some execution_cost) (Some slippage) fill_rate).

(** ** Concrete frames *)

Definition qz (n : Z) : num := of_Z n.

(** A market series with the default index [0 .. N-1]. *)
Definition market_frame (prices volumes : list num) : DataFrame :=
  mkDF (seqZ 0 (Z.of_nat (length prices)))
       (<["price" := prices]> (<["volume" := volumes]> ∅)).

Definition scenario_market : DataFrame :=
  market_frame [qz 10; qz 20; qz 30] [qz 5; qz 5; qz 5].

(** Steps 2 to 5 of [main] in main.py: the schedule is generated from the
    market data, the backtester is built on the schedule (not on the market
    data) and run on the schedule, then the metrics are computed. *)
Definition main_metrics (market_data : DataFrame) (st : TWAPStrategy)
    (slippage : num) (benchmark_type : string) : res metrics :=
  df_orders ← generate_orders st market_data;
  let backtester := Backtester_init df_orders slippage in
  let '(executed_data, backtester) := run backtester df_orders in
  _ ← executed_data;
  calculate_metrics backtester benchmark_type.

(** A schedule on the default index, with only the order column. *)
Definition schedule_frame (qs : list num) : DataFrame :=
  mkDF (seqZ 0 (Z.of_nat (length qs))) (<["order_quantity" := qs]> ∅).

Definition tenth : num := Fin (Q2Qc (1 # 10)).

(** The schedule the TWAP slicing is meant to produce on a series of
    length [N]: [t / (b - a + 1)] on the labels [a .. b], 0 elsewhere. *)
Definition twap_schedule (N : nat) (t : Qc) (a b : Z) : list num :=
  (λ i : Z, if decide (a ≤ i ≤ b)%Z then Fin (t / Qc_of_Z (b - a + 1)) else Fin 0)
    <$> seqZ 0 (Z.of_nat N).

Definition Qc_sum (l : list Qc) : Qc := foldr Qcplus 0 l.

(** What the loop of [generate_orders] does to the order column for one
    label that is in the index [ix]. *)
Definition set_label (ix : list Z) (q : num) (s : list num) (idx : Z) : list num :=
  from_option (λ i, <[i := q]> s) s (get_loc idx ix).

(** A column that is as long as its frame's index, in a frame with unique
    labels. *)
Definition col_ok (df : DataFrame) (col : string) : Prop :=
  NoDup (index df) ∧
  ∃ s, columns df !! col = Some s ∧ length s = length (index df).

Definition raises {A} (r : res A) : Prop := ∃ e, r = Raise e.

Global Instance DataFrame_eq_dec : EqDecision DataFrame.
Proof. solve_decision. Defined.

(** The state of a backtester's working frame: well formed, with the two
    market columns and the three execution columns. *)
Definition exec_columns : list string :=
  ["expected_price"; "executed_price"; "executed_quantity"].

Definition exec_ready (md : DataFrame) : Prop :=
  wf_frame md ∧
  ∀ c, c ∈ ["price"; "volume"] ++ exec_columns → is_Some (columns md !! c).

(** The three writes of [run] for one filled period. *)
Definition fill_period (md : DataFrame) (idx : Z) (slippage q p v : num) : DataFrame :=
  at_set
    (at_set (at_set md idx "expected_price" p)
            idx "executed_price" (fmul p (fadd (Fin 1) slippage)))
    idx "executed_quantity" (py_min q v).

(** A schedule row that places an order, and one that places an order on a
    label the working frame does not have. *)
Definition ordered (r : Z * gmap string num) : bool :=
  match r.2 !! "order_quantity" with
  | Some q => fgt q (Fin 0)
  | None => false
  end.

Definition unmatched (ix : list Z) (r : Z * gmap string num) : bool :=
  ordered r && bool_decide (r.1 ∉ ix).

(** The rows [calculate_metrics] keeps, as one mask over the positions:
    executed price defined and executed quantity positive. *)
Definition filled_mask (eps eqs : list num) : list bool :=
  zip_with (λ e q, notna e && fgt q (Fin 0)) eps eqs.

(** ** Execution results as records

    The metrics are stated over a list of per-period records with rational
    fields; an undefined price is [None].  [records md ps] says that the six
    columns of the frame [md] hold the fields of [ps]. *)

Record period : Type := mkPeriod {
  price : Qc;
  volume : Qc;
  order_quantity : Qc;
  executed_quantity : Qc;
  executed_price : option Qc;
  expected_price : option Qc
}.

Definition cell (o : option Qc) : num :=
  match o with
  | Some q => Fin q
  | None => NaN
  end.

Definition records (md : DataFrame) (ps : list period) : Prop :=
  length (index md) = length ps
  ∧ columns md !! "price" = Some ((λ p, Fin (price p)) <$> ps)
  ∧ columns md !! "volume" = Some ((λ p, Fin (volume p)) <$> ps)
  ∧ columns md !! "order_quantity" = Some ((λ p, Fin (order_quantity p)) <$> ps)
  ∧ columns md !! "executed_quantity"
    = Some ((λ p, Fin (executed_quantity p)) <$> ps)
  ∧ columns md !! "executed_price" = Some ((λ p, cell (executed_price p)) <$> ps)
  ∧ columns md !! "expected_price" = Some ((λ p, cell (expected_price p)) <$> ps).

Global Instance records_dec md ps : Decision (records md ps).
Proof. unfold records. apply _. Defined.

(** The filled set: executed quantity positive and executed price defined. *)
Definition is_filled (p : period) : Prop :=
  0 < executed_quantity p ∧ is_Some (executed_price p).

Global Instance is_filled_dec p : Decision (is_filled p).
Proof. unfold is_filled. apply _. Defined.

Definition filled (ps : list period) : list period := filter is_filled ps.

Definition total_executed (ps : list period) : Qc :=
  Qc_sum (executed_quantity <$> filled ps).

Definition total_ordered (ps : list period) : Qc :=
  Qc_sum (order_quantity <$> ps).

(** Sum over [ps] of [f p * executed_quantity p]; a period whose [f] is
    undefined contributes nothing. *)
Definition weighted_sum (f : period → option Qc) (ps : list period) : Qc :=
  Qc_sum ((λ p, from_option (λ x, x * executed_quantity p) 0 (f p)) <$> ps).

Definition avg_exec_price (ps : list period) : Qc :=
  weighted_sum executed_price (filled ps) / total_executed ps.

Definition avg_expected_price (ps : list period) : Qc :=
  weighted_sum expected_price (filled ps) / total_executed ps.

Definition price_volume_total (ps : list period) : Qc :=
  Qc_sum ((λ p, price p * volume p) <$> ps).

Definition volume_total (ps : list period) : Qc := Qc_sum (volume <$> ps).

Definition price_total (ps : list period) : Qc := Qc_sum (price <$> ps).

(** The scenario of the specification after [run]: the schedule frame of a
    TWAP of 9 over the labels 0 to 2, executed with slippage 0.1; and its
    three periods as records. *)
Definition scenario_orders : DataFrame :=
  mkDF (index scenario_market)
       (<["order_quantity" := twap_schedule 3 (Qc_of_Z 9) 0 2]>
          (columns scenario_market)).




Global Instance period_eq_dec : EqDecision period.
Proof. solve_decision. Defined.

(** The spellings of a letter in either case. *)
Definition either_case (upper_letter lower_letter : ascii) (c : ascii) : Prop :=
  c = upper_letter ∨ c = lower_letter.

(** A market series on which the volume-weighted and the plain average price
    differ. *)
Definition skewed_market : DataFrame :=
  market_frame [qz 10; qz 20; qz 30] [qz 1; qz 5; qz 5].

(** ** Objects and references

    pandas frames are mutable objects, and Python passes references to
    them.  The store is the list of the frame objects that exist; a
    reference is a position in it, and a new object gets the next position.
    The methods of the two classes are restated here on references, with
    each access to a frame naming the object it goes to: [market_data.copy()]
    allocates, [self.market_data.at[...] = ...] writes to the object the
    backtester refers to.  [run_ref_frame] and [Backtester_init_ref_eq]
    below relate them to [run] and [Backtester_init], which describe the
    same statements on the frame they work on. *)

Abbreviation ref := nat (only parsing).
Abbreviation store := (list DataFrame) (only parsing).

Definition no_frame : DataFrame := mkDF [] ∅.

(** The object a reference points to. *)
Definition deref (h : store) (r : ref) : DataFrame := default no_frame (h !! r).

(** Statements on the store; they may raise. *)
Definition Sto (A : Type) : Type := store → res A * store.

Global Instance Sto_ret : MRet Sto := λ A a h, (Return a, h).
Global Instance Sto_bind : MBind Sto := λ A B f c h,
  match c h with
  | (Raise e, h') => (Raise e, h')
  | (Return a, h') => f a h'
  end.

(** [df.copy()]: a new object with the same contents. *)
Definition df_copy (r : ref) : Sto ref :=
  λ h, (Return (length h), h ++ [deref h r]).

(** [df[col] = v], [df.at[idx, col]], [df.at[idx, col] = v] and
    [df.iterrows()] on the object [r]. *)
Definition df_setitem (r : ref) (col : string) (v : num) : Sto unit :=
  λ h, (Return (), alter (λ df, setitem_scalar df col v) r h).

Definition df_at_get (r : ref) (idx : Z) (col : string) : Sto num :=
  λ h, (at_get (deref h r) idx col, h).

Definition df_at_set (r : ref) (idx : Z) (col : string) (v : num) : Sto unit :=
  λ h, (Return (), alter (λ df, at_set df idx col v) r h).

Definition df_iterrows (r : ref) : Sto (list (Z * gmap string num)) :=
  λ h, (Return (iterrows (deref h r)), h).

Definition Sto_lift {A} (x : res A) : Sto A := λ h, (x, h).

Fixpoint Sto_for_each {A} (l : list A) (body : A → Sto unit) : Sto unit :=
  match l with
  | [] => mret ()
  | x :: l' => _ ← body x; Sto_for_each l' body
  end.

(** A backtester object: [self.market_data] is a reference. *)
Record BacktesterRef : Type := mkRef {
  frame_ref : ref;
  slippage_of : num
}.

(** [Backtester.__init__], lines 21-27. *)
Definition Backtester_init_ref (market_data : ref) (slippage_factor : num)
    : Sto BacktesterRef :=
  self_market_data ← df_copy market_data;
  _ ← df_setitem self_market_data "executed_quantity" (Fin 0);
  _ ← df_setitem self_market_data "executed_price" NaN;
  _ ← df_setitem self_market_data "expected_price" NaN;
  mret (mkRef self_market_data slippage_factor).

(** The body of the loop of [run], lines 41-54. *)
Definition run_row_ref (self : BacktesterRef) (r : Z * gmap string num) : Sto unit :=
  let '(idx, row) := r in
  order_qty ← Sto_lift (row_get row "order_quantity");
  if fgt order_qty (Fin 0) then
    market_volume ← df_at_get (frame_ref self) idx "volume";
    let possible_fill := py_min order_qty market_volume in
    price ← df_at_get (frame_ref self) idx "price";
    _ ← df_at_set (frame_ref self) idx "expected_price" price;
    price ← df_at_get (frame_ref self) idx "price";
    let executed_p := fmul price (fadd (Fin 1) (slippage_of self)) in
    _ ← df_at_set (frame_ref self) idx "executed_price" executed_p;
    df_at_set (frame_ref self) idx "executed_quantity" possible_fill
  else mret ().

(** [Backtester.run], lines 40-56: the value returned is the reference
    [self.market_data] itself.  The rows of [df_orders] are those of the
    object at the start of the loop; the loop writes no column that it reads
    from a row. *)
Definition run_ref (self : BacktesterRef) (df_orders : ref) : Sto ref :=
  rows ← df_iterrows df_orders;
  _ ← Sto_for_each rows (run_row_ref self);
  mret (frame_ref self).

(** [TWAPStrategy.generate_orders], lines 36-43. *)
Definition generate_orders_ref (st : TWAPStrategy) (market_data : ref) : Sto ref :=
  df_orders ← df_copy market_data;
  _ ← df_setitem df_orders "order_quantity" (Fin 0);
  _ ← Sto_for_each (py_range (start_index st) (end_index st + 1))
        (λ idx, df_at_set df_orders idx "order_quantity" (qty_per_slice st));
  mret df_orders.

(** A caller's program: a sequence of calls on the frames and backtesters
    it holds.  The frames are the objects of the store, the backtesters are
    kept in a list.  A call that names an object that does not exist is not
    a call the caller can make; it is skipped. *)
Record world : Type := mkWorld {
  frames : store;
  objects : list BacktesterRef
}.

Inductive call : Type :=
  | CallGenerate (st : TWAPStrategy) (src : ref)
  | CallNew (src : ref) (s : num)
  | CallRun (b : nat) (orders : ref)
  | CallMetrics (b : nat) (benchmark_type : string).

Definition step (c : call) (w : world) : world :=
  match c with
  | CallGenerate st src =>
      if decide (src < length (frames w))%nat
      then mkWorld (generate_orders_ref st src (frames w)).2 (objects w)
      else w
  | CallNew src s =>
      if decide (src < length (frames w))%nat
      then match Backtester_init_ref src s (frames w) with
           | (Return o, h) => mkWorld h (objects w ++ [o])
           | (Raise _, h) => mkWorld h (objects w)
           end
      else w
  | CallRun b orders =>
      match objects w !! b with
      | Some o =>
          if decide (orders < length (frames w))%nat
          then mkWorld (run_ref o orders (frames w)).2 (objects w)
          else w
      | None => w
      end
  | CallMetrics _ _ => w
  end.

Definition exec (calls : list call) (w : world) : world :=
  foldl (λ w c, step c w) w calls.

(** Two stores with the same objects except possibly at [r]. *)
Definition same_except (r : ref) (h h' : store) : Prop :=
  length h' = length h ∧ ∀ l, l ≠ r → h' !! l = h !! l.

(** The caller's frames [h0] are still in place, and every backtester's
    working frame is an object created after them. *)
Definition originals_kept (h0 : store) (w : world) : Prop :=
  (∀ l df, h0 !! l = Some df → frames w !! l = Some df)
  ∧ (length h0 ≤ length (frames w))%nat
  ∧ Forall (λ o, (length h0 ≤ frame_ref o)%nat) (objects w).

(** The working frame of a backtester on a series without any volume: the
    volume column is all 0 and no executed quantity is positive. *)
Definition no_volume (md : DataFrame) : Prop :=
  exec_ready md
  ∧ (∃ vs, columns md !! "volume" = Some vs ∧ Forall (λ v, v = Fin 0) vs)
  ∧ (∃ eqs, columns md !! "executed_quantity" = Some eqs
            ∧ Forall (λ q, fgt q (Fin 0) = false) eqs).

(** ** data_generator.py: [generate_synthetic_data]

    The three library calls of the function, [pd.date_range],
    [np.random.normal] and [np.random.poisson], each return [periods]
    entries; their results are parameters here (timestamps are encoded as
    numbers).  Creating the folder and writing the CSV file are left out. *)

(** Python's builtin [max(a, b)]: the first argument unless the second is
    strictly greater. *)
Definition py_max (a b : num) : num := if fgt b a then b else a.

(** [prices[-1]] on the list built by the loop, which is never empty. *)
Definition last_price (prices : list num) : num := List.last prices NaN.

(** Lines 47-51: the random walk, floored at 1, without the seed value. *)
Definition price_walk (initial_price : num) (price_changes : list num) : list num :=
  let prices :=
    foldl (λ prices change,
             let next_price := fadd (last_price prices) change in
             prices ++ [py_max (Fin 1) next_price])
          [initial_price] price_changes in
  drop 1 prices.

Definition generate_synthetic_data (periods : nat)
    (timestamp_index price_changes volumes : list num) (initial_price : num)
    : DataFrame :=
  mkDF (seqZ 0 (Z.of_nat periods))
       (<["timestamp" := timestamp_index]>
       (<["price" := price_walk initial_price price_changes]>
       (<["volume" := volumes]> ∅))).

(** The walk as a recursion on the changes, from the last price. *)
Fixpoint walk_from (last : num) (price_changes : list num) : list num :=
  match price_changes with
  | [] => []
  | change :: rest =>
      let next := py_max (Fin 1) (fadd last change) in
      next :: walk_from next rest
  end.

(** The floored walk on rationals. *)
Fixpoint floored_walk (last : Qc) (price_changes : list Qc) : list Qc :=
  match price_changes with
  | [] => []
  | change :: rest =>
      let next := if decide (1 < last + change) then last + change else 1 in
      next :: floored_walk next rest
  end.

(** ** One period of the simulation on rationals

    A period's input is its price, volume and order quantity;
    [execute_period] is what lines 41-54 of [run] record for it. *)

Record order_row : Type := mkRow {
  row_price : Qc;
  row_volume : Qc;
  row_order : Qc
}.

Global Instance order_row_eq_dec : EqDecision order_row.
Proof. solve_decision. Defined.

Definition execute_period (s : Qc) (r : order_row) : period :=
  if decide (0 < row_order r) then
    mkPeriod (row_price r) (row_volume r) (row_order r)
             (if decide (row_volume r < row_order r)
              then row_volume r else row_order r)
             (Some (row_price r * (1 + s))) (Some (row_price r))
  else
    mkPeriod (row_price r) (row_volume r) (row_order r) 0 None None.

(** The frame [df] holds the rows [rows] in its price, volume and order
    columns (the frame [main] passes both to the constructor and to
    [run]). *)
Definition holds_rows (df : DataFrame) (rows : list order_row) : Prop :=
  wf_frame df
  ∧ length (index df) = length rows
  ∧ columns df !! "price" = Some ((λ r, Fin (row_price r)) <$> rows)
  ∧ columns df !! "volume" = Some ((λ r, Fin (row_volume r)) <$> rows)
  ∧ columns df !! "order_quantity" = Some ((λ r, Fin (row_order r)) <$> rows).

Global Instance holds_rows_dec df rows : Decision (holds_rows df rows).
Proof. unfold holds_rows. apply _. Defined.

(** The backtester after [main]'s steps 4: built on [df] and run on [df]. *)
Definition run_on_itself (df : DataFrame) (s : Qc) : Backtester :=
  (run (Backtester_init df (Fin s)) df).2.

(** A period that can fill: a positive order meets a positive volume. *)
Definition can_fill (r : order_row) : Prop := 0 < row_order r ∧ 0 < row_volume r.

Global Instance can_fill_dec r : Decision (can_fill r).
Proof. unfold can_fill. apply _. Defined.

(** The scenario with the first period's volume cut to 1. *)
Definition capped_rows : list order_row :=
  [mkRow (Qc_of_Z 10) (Qc_of_Z 1) (Qc_of_Z 3);
   mkRow (Qc_of_Z 20) (Qc_of_Z 5) (Qc_of_Z 3);
   mkRow (Qc_of_Z 30) (Qc_of_Z 5) (Qc_of_Z 3)].

Definition rows_frame (rows : list order_row) : DataFrame :=
  mkDF (seqZ 0 (Z.of_nat (length rows)))
       (<["price" := (λ r, Fin (row_price r)) <$> rows]>
       (<["volume" := (λ r, Fin (row_volume r)) <$> rows]>
       (<["order_quantity" := (λ r, Fin (row_order r)) <$> rows]> ∅))).

(** The TWAP schedule on rationals, and the rows of a series with its
    schedule. *)
Definition twap_quantities (N : nat) (t : Qc) (a b : Z) : list Qc :=
  (λ i : Z, if decide (a ≤ i ≤ b)%Z then t / Qc_of_Z (b - a + 1) else 0)
    <$> seqZ 0 (Z.of_nat N).

Definition make_rows (ps vs qs : list Qc) : list order_row :=
  zip_with (λ p vq, mkRow p vq.1 vq.2) ps (zip vs qs).

(** ** IEEE doubles

    The numbers above are exact.  Where rounding decides what the source
    computes, the same expressions are evaluated on binary64 numbers, with
    the operations of the Standard Library's specification of IEEE 754
    (precision 53, round to nearest even): the Python [float] and the numpy
    [float64]. *)
Module Binary64.

Definition binary64 : Type := SpecFloat.spec_float.

Global Instance binary64_eq_dec : EqDecision binary64.
Proof. solve_decision. Defined.

(** The double of an integer (exact below 2^53). *)
Definition of_Z (z : Z) : binary64 := SpecFloat.binary_normalize 53 1024 z 0 false.

Definition add : binary64 → binary64 → binary64 := SpecFloat.SFadd 53 1024.
Definition div : binary64 → binary64 → binary64 := SpecFloat.SFdiv 53 1024.


(** strategy.py, lines 32-33. *)
Definition qty_per_slice (total_order_quantity : binary64)
    (start_index end_index : Z) : binary64 :=
  let n_slices := (end_index - start_index + 1)%Z in
  if decide (0 < n_slices)%Z then div total_order_quantity (of_Z n_slices)
  else of_Z 0.



End Binary64.

(** * Properties *)

(** ** Row labels *)

Lemma get_loc_Some idx ix i :
  get_loc idx ix = Some i → ix !! i = Some idx.
Proof.
  revert i. induction ix as [|j ix IH]; intros i; simpl; [done|].
  case_decide as Hj.
  - intros [= <-]. by subst.
  - destruct (get_loc idx ix) as [k|] eqn:E; simpl; [|done].
    intros [= <-]. by apply IH.
Qed.

Lemma get_loc_None idx ix :
  get_loc idx ix = None ↔ idx ∉ ix.
Proof.
  induction ix as [|j ix IH]; simpl.
  - split; [intros _; apply not_elem_of_nil | done].
  - rewrite not_elem_of_cons. case_decide as Hj.
    + split; [done | intros [? _]; congruence].
    + destruct (get_loc idx ix) eqn:E; simpl.
      * split; [done | intros [_ H]; by apply IH in H].
      * split; [intros _; split; [congruence | by apply IH] | done].
Qed.

Lemma get_loc_NoDup idx ix i :
  NoDup ix → ix !! i = Some idx → get_loc idx ix = Some i.
Proof.
  intros Hnd Hi. destruct (get_loc idx ix) as [k|] eqn:E.
  - apply get_loc_Some in E. f_equal. by eapply NoDup_lookup.
  - apply get_loc_None in E. destruct E. by eapply list_elem_of_lookup_2.
Qed.

Lemma get_loc_lt idx ix i : get_loc idx ix = Some i → (i < length ix)%nat.
Proof. intros H. by eapply lookup_lt_Some, get_loc_Some. Qed.

Lemma get_loc_seqZ (N : nat) (i : Z) :
  (0 ≤ i < Z.of_nat N)%Z → get_loc i (seqZ 0 (Z.of_nat N)) = Some (Z.to_nat i).
Proof.
  intros Hi. apply get_loc_NoDup; [apply NoDup_seqZ|].
  rewrite lookup_seqZ_lt by lia. f_equal. lia.
Qed.

(** ** Cell access *)

Lemma at_set_present df idx col v i s :
  get_loc idx (index df) = Some i →
  columns df !! col = Some s →
  at_set df idx col v = mkDF (index df) (<[col := <[i := v]> s]> (columns df)).
Proof.
  intros Hi Hc. unfold at_set, ensure_row, ensure_column.
  rewrite Hi, Hc, Hi. f_equal.
  apply map_eq. intros c. rewrite lookup_alter, lookup_insert.
  case_decide; subst; by rewrite ?Hc.
Qed.

Lemma at_set_new_row df idx col v s :
  get_loc idx (index df) = None →
  NoDup (index df) →
  columns df !! col = Some s →
  length s = length (index df) →
  at_set df idx col v =
    mkDF (index df ++ [idx])
         (<[col := s ++ [v]]> ((λ c, c ++ [NaN]) <$> columns df)).
Proof.
  intros Hi Hnd Hc Hlen. unfold at_set, ensure_row, ensure_column.
  rewrite Hi. simpl. rewrite lookup_fmap, Hc. simpl.
  rewrite (get_loc_NoDup idx _ (length (index df))).
  - f_equal. apply map_eq. intros c.
    rewrite lookup_alter, lookup_insert, lookup_fmap.
    case_decide; subst; [|done]. rewrite Hc. simpl. f_equal.
    rewrite <- Hlen. rewrite insert_app_r_alt, Nat.sub_diag by done. done.
  - apply list.NoDup_app. split; [done|]. split; [|apply NoDup_singleton].
    intros x Hx ->%list_elem_of_singleton. by apply get_loc_None in Hi.
  - by rewrite lookup_app_r, Nat.sub_diag.
Qed.

Lemma at_get_present df idx col i s v :
  get_loc idx (index df) = Some i →
  columns df !! col = Some s →
  s !! i = Some v →
  at_get df idx col = Return v.
Proof. intros Hi Hc Hv. unfold at_get. by rewrite Hc, Hi, Hv. Qed.

(** ** Sums of finite columns *)

Lemma series_sum_Fin (l : list Qc) : series_sum (Fin <$> l) = Fin (Qc_sum l).
Proof.
  unfold series_sum. induction l as [|x l IH]; [done|].
  rewrite fmap_cons, filter_cons_True by done. cbn [foldr]. by rewrite IH.
Qed.

Lemma series_count_Fin (l : list Qc) : series_count (Fin <$> l) = length l.
Proof.
  unfold series_count. induction l as [|x l IH]; [done|].
  rewrite fmap_cons, filter_cons_True by done. cbn [length]. by rewrite IH.
Qed.

(** ** The TWAP loop on labels that are in the index *)

Lemma for_each_write_at col q (l : list Z) : ∀ df,
  for_each l (λ idx, write_at idx col q) df
  = (Return (), foldl (λ df idx, at_set df idx col q) df l).
Proof. induction l as [|x l IH]; intros df; [done|]. cbn. apply IH. Qed.

Lemma generate_orders_foldl st md :
  generate_orders st md
  = Return (foldl (λ df idx, at_set df idx "order_quantity" (qty_per_slice st))
                  (setitem_scalar md "order_quantity" (Fin 0))
                  (py_range (start_index st) (end_index st + 1))).
Proof. unfold generate_orders, result_frame. by rewrite for_each_write_at. Qed.

Lemma twap_loop_present ix cols q (l : list Z) : ∀ s,
  (∀ idx, idx ∈ l → idx ∈ ix) →
  foldl (λ df idx, at_set df idx "order_quantity" q)
        (mkDF ix (<["order_quantity" := s]> cols)) l
  = mkDF ix (<["order_quantity" := foldl (set_label ix q) s l]> cols).
Proof.
  induction l as [|x l IH]; intros s Hin; [done|].
  cbn [foldl]. destruct (get_loc x ix) as [i|] eqn:Hx.
  - erewrite at_set_present; [| exact Hx | apply lookup_insert_eq].
    cbn [index columns]. rewrite insert_insert_eq, IH.
    + unfold set_label at 3. by rewrite Hx.
    + intros idx Hidx. apply Hin. by right.
  - apply get_loc_None in Hx. destruct Hx. apply Hin. by left.
Qed.

Lemma length_set_labels ix q (l : list Z) : ∀ s,
  length (foldl (set_label ix q) s l) = length s.
Proof.
  induction l as [|x l IH]; intros s; [done|].
  cbn [foldl]. rewrite IH. unfold set_label.
  destruct (get_loc x ix); simpl; [apply length_insert | done].
Qed.

Lemma lookup_set_labels (N : nat) q (l : list Z) : ∀ s (i : nat),
  length s = N →
  (i < N)%nat →
  (∀ idx, idx ∈ l → (0 ≤ idx < Z.of_nat N)%Z) →
  foldl (set_label (seqZ 0 (Z.of_nat N)) q) s l !! i
  = if decide (Z.of_nat i ∈ l) then Some q else s !! i.
Proof.
  induction l as [|x l IH]; intros s i Hlen Hi Hin.
  - cbn [foldl]. case_decide as H; [|done]. by apply elem_of_nil in H.
  - cbn [foldl]. assert (0 ≤ x < Z.of_nat N)%Z as Hx by (apply Hin; by left).
    unfold set_label at 2. rewrite get_loc_seqZ by done. cbn [from_option].
    rewrite IH; [| by rewrite length_insert | done | intros; apply Hin; by right].
    rewrite list_lookup_insert.
    destruct (decide (Z.of_nat i ∈ l)) as [Hl|Hl].
    + rewrite (decide_True (P := Z.of_nat i ∈ x :: l)); [done | by right].
    + destruct (decide (Z.of_nat i = x)) as [<-|Hne].
      * rewrite (decide_True (P := Z.of_nat i ∈ Z.of_nat i :: l)) by (by left).
        rewrite decide_True; [done | split; lia].
      * rewrite (decide_False (P := Z.of_nat i ∈ x :: l))
          by (rewrite elem_of_cons; tauto).
        rewrite decide_False; [done | lia].
Qed.

Lemma twap_column (N : nat) (t : Qc) (a b : Z) :
  (b < a ∨ 0 ≤ a ∧ b < Z.of_nat N)%Z →
  foldl (set_label (seqZ 0 (Z.of_nat N)) (qty_per_slice (mkTWAP (Fin t) a b)))
        (replicate N (Fin 0)) (py_range a (b + 1))
  = twap_schedule N t a b.
Proof.
  intros Hab. unfold py_range, twap_schedule.
  apply (list_eq_same_length _ _ N).
  - by rewrite length_fmap, length_seqZ, Nat2Z.id.
  - by rewrite length_set_labels, length_replicate.
  - intros i x y Hi. rewrite lookup_set_labels; [| apply length_replicate | done |].
    + rewrite list_lookup_fmap, lookup_seqZ_lt by lia. cbn.
      rewrite Z.add_0_l, lookup_replicate_2 by done.
      unfold qty_per_slice, n_slices. cbn [total_order_quantity start_index end_index].
      destruct (decide (Z.of_nat i ∈ seqZ a (b + 1 - a))) as [Hin|Hin];
        rewrite elem_of_seqZ in Hin.
      * rewrite (decide_True (P := (a ≤ Z.of_nat i ≤ b)%Z)) by lia.
        rewrite (decide_True (P := (0 < b - a + 1)%Z)) by lia.
        cbn [fdiv of_Z]. rewrite decide_False; [congruence|].
        rewrite <- Z2Qc_inj_0. intros ?%Z2Qc_inj. lia.
      * rewrite (decide_False (P := (a ≤ Z.of_nat i ≤ b)%Z)) by lia. congruence.
    + intros idx. rewrite elem_of_seqZ. lia.
Qed.






(** ** C2: the TWAP schedule *)




(** ** Writing through [.at], with and without enlargement *)

Lemma get_loc_app_l idx ix k i :
  get_loc idx ix = Some i → get_loc idx (ix ++ k) = Some i.
Proof.
  revert i. induction ix as [|j ix IH]; intros i; [done|]. cbn.
  case_decide; [done|].
  destruct (get_loc idx ix) as [n|]; [|done]. by rewrite (IH n).
Qed.

Lemma get_loc_snoc_ne idx idx' ix :
  idx' ≠ idx → get_loc idx' ix = None → get_loc idx' (ix ++ [idx]) = None.
Proof.
  rewrite !get_loc_None, not_elem_of_app, list_elem_of_singleton. tauto.
Qed.

Section at_set.
Context (df : DataFrame) (idx : Z) (col : string) (v : num).
Hypothesis Hok : col_ok df col.

Lemma index_at_set :
  index (at_set df idx col v)
  = if decide (idx ∈ index df) then index df else index df ++ [idx].
Proof.
  destruct Hok as (Hnd & s & Hc & Hlen).
  destruct (get_loc idx (index df)) as [i|] eqn:Hi.
  - erewrite at_set_present by done. rewrite decide_True; [done|].
    eapply list_elem_of_lookup_2, get_loc_Some, Hi.
  - erewrite at_set_new_row by done. rewrite decide_False; [done|].
    by apply get_loc_None.
Qed.

Lemma col_ok_at_set : col_ok (at_set df idx col v) col.
Proof.
  destruct Hok as (Hnd & s & Hc & Hlen).
  destruct (get_loc idx (index df)) as [i|] eqn:Hi.
  - erewrite at_set_present by done. split; [done|].
    eexists. cbn. rewrite lookup_insert_eq. split; [done|].
    by rewrite length_insert.
  - erewrite at_set_new_row by done. split.
    + cbn. apply list.NoDup_app. split; [done|]. split; [|apply NoDup_singleton].
      intros x Hx ->%list_elem_of_singleton. by apply get_loc_None in Hi.
    + eexists. cbn. rewrite lookup_insert_eq. split; [done|].
      rewrite !length_app. cbn. lia.
Qed.

Lemma at_get_at_set_eq : at_get (at_set df idx col v) idx col = Return v.
Proof.
  destruct Hok as (Hnd & s & Hc & Hlen).
  destruct (get_loc idx (index df)) as [i|] eqn:Hi.
  - erewrite at_set_present by done.
    eapply at_get_present; [done | apply lookup_insert_eq |].
    apply list_lookup_insert_eq. rewrite Hlen. by eapply get_loc_lt.
  - erewrite at_set_new_row by done.
    eapply (at_get_present _ _ _ (length (index df))).
    + cbn. apply get_loc_NoDup.
      * apply list.NoDup_app. split; [done|]. split; [|apply NoDup_singleton].
        intros x Hx ->%list_elem_of_singleton. by apply get_loc_None in Hi.
      * by rewrite lookup_app_r, Nat.sub_diag.
    + apply lookup_insert_eq.
    + by rewrite <- Hlen, lookup_app_r, Nat.sub_diag.
Qed.

Lemma at_get_at_set_ne idx' :
  idx' ≠ idx → at_get (at_set df idx col v) idx' col = at_get df idx' col.
Proof.
  intros Hne. destruct Hok as (Hnd & s & Hc & Hlen).
  destruct (get_loc idx (index df)) as [i|] eqn:Hi.
  - erewrite at_set_present by done. unfold at_get. cbn.
    rewrite lookup_insert_eq, Hc.
    destruct (get_loc idx' (index df)) as [j|] eqn:Hj; [|done].
    rewrite list_lookup_insert_ne; [done|].
    intros ->. apply get_loc_Some in Hi, Hj. congruence.
  - erewrite at_set_new_row by done. unfold at_get. cbn.
    rewrite lookup_insert_eq, Hc.
    destruct (get_loc idx' (index df)) as [j|] eqn:Hj.
    + rewrite (get_loc_app_l _ _ _ j) by done.
      rewrite lookup_app_l; [done|]. rewrite Hlen. by eapply get_loc_lt.
    + by rewrite get_loc_snoc_ne.
Qed.
End at_set.

Lemma filter_not_in_snoc (ix l : list Z) (x : Z) :
  x ∉ l →
  filter (λ idx, idx ∉ ix ++ [x]) l = filter (λ idx, idx ∉ ix) l.
Proof.
  induction l as [|y l IH]; [done|].
  intros [Hne Hx]%not_elem_of_cons.
  destruct (decide (y ∈ ix)) as [Hy|Hy].
  - rewrite !filter_cons_False; [by apply IH | tauto |].
    rewrite elem_of_app. tauto.
  - rewrite !filter_cons_True; [by rewrite IH | done |].
    rewrite not_elem_of_app, list_elem_of_singleton. split; [done | congruence].
Qed.

(** The loop of [generate_orders] over any list of distinct labels: labels
    that are missing from the index are appended, in loop order. *)
Lemma twap_loop_enlarging q (l : list Z) : ∀ df,
  NoDup l →
  col_ok df "order_quantity" →
  let df' := foldl (λ df idx, at_set df idx "order_quantity" q) df l in
  col_ok df' "order_quantity"
  ∧ index df' = index df ++ filter (λ idx, idx ∉ index df) l
  ∧ (∀ idx, idx ∈ l → at_get df' idx "order_quantity" = Return q)
  ∧ (∀ idx, idx ∉ l →
       at_get df' idx "order_quantity" = at_get df idx "order_quantity").
Proof.
  induction l as [|x l IH]; intros df Hnd Hok; cbn [foldl].
  - split; [done|]. split; [by rewrite filter_nil, app_nil_r|].
    split; [by intros idx ?%elem_of_nil | done].
  - apply list.NoDup_cons in Hnd as [Hx Hnd].
    pose proof (col_ok_at_set df x _ q Hok) as Hok1.
    destruct (IH _ Hnd Hok1) as (Hok' & Hix & Hin & Hout).
    split; [done|]. split; [|split].
    + rewrite Hix, index_at_set by done.
      destruct (decide (x ∈ index df)) as [Hxi|Hxi].
      * by rewrite filter_cons_False by tauto.
      * rewrite filter_cons_True by done.
        by rewrite filter_not_in_snoc, <- app_assoc.
    + intros idx [->|Hidx]%elem_of_cons; [|by apply Hin].
      rewrite Hout by done. by apply at_get_at_set_eq.
    + intros idx [Hne Hidx]%not_elem_of_cons.
      rewrite Hout by done. by apply at_get_at_set_ne.
Qed.

Lemma col_ok_setitem_scalar df col v :
  NoDup (index df) → col_ok (setitem_scalar df col v) col.
Proof.
  intros Hnd. split; [done|]. eexists. cbn. rewrite lookup_insert_eq.
  split; [done|]. apply length_replicate.
Qed.

Lemma at_get_setitem_scalar df col v idx :
  idx ∈ index df → at_get (setitem_scalar df col v) idx col = Return v.
Proof.
  intros Hin. unfold at_get. cbn. rewrite lookup_insert_eq.
  destruct (get_loc idx (index df)) as [i|] eqn:Hi.
  - rewrite lookup_replicate_2; [done|]. by eapply get_loc_lt.
  - by apply get_loc_None in Hi.
Qed.

(** ** C8: window bounds outside the series *)

(** C8, as the code behaves.  [generate_orders] never raises, whatever the
    window: every label of [start .. end] that is not a label of the series
    is appended to the result as a new row (in loop order), and every label
    of the window, inside the series or not, carries the per-slice quantity;
    the labels of the series outside the window carry 0. *)
Theorem C8_generate_orders_enlarges (md : DataFrame) (N : nat) (st : TWAPStrategy) :
  index md = seqZ 0 (Z.of_nat N) →
  ∃ df, generate_orders st md = Return df
    ∧ index df = seqZ 0 (Z.of_nat N)
                 ++ filter (λ idx, idx ∉ seqZ 0 (Z.of_nat N))
                           (py_range (start_index st) (end_index st + 1))
    ∧ (∀ idx, (start_index st ≤ idx ≤ end_index st)%Z →
         at_get df idx "order_quantity" = Return (qty_per_slice st))
    ∧ (∀ idx, (0 ≤ idx < Z.of_nat N)%Z →
         ¬ (start_index st ≤ idx ≤ end_index st)%Z →
         at_get df idx "order_quantity" = Return (Fin 0)).
Proof.
  intros Hix. eexists. split; [apply generate_orders_foldl|].
  pose proof (twap_loop_enlarging (qty_per_slice st)
                (py_range (start_index st) (end_index st + 1))
                (setitem_scalar md "order_quantity" (Fin 0))) as H.
  destruct H as (_ & Hidx & Hin & Hout).
  - apply NoDup_seqZ.
  - apply col_ok_setitem_scalar. rewrite Hix. apply NoDup_seqZ.
  - split; [|split].
    + rewrite Hidx. cbn [setitem_scalar index]. by rewrite Hix.
    + intros idx Hw. apply Hin. unfold py_range. rewrite elem_of_seqZ. lia.
    + intros idx Hr Hw. rewrite Hout.
      * apply at_get_setitem_scalar. rewrite Hix, elem_of_seqZ. lia.
      * unfold py_range. rewrite elem_of_seqZ. lia.
Qed.

Lemma C8_generate_orders_enlarges_witness :
  ∃ df, generate_orders (mkTWAP (qz 9) 0 3) scenario_market = Return df
    ∧ index df = seqZ 0 (Z.of_nat 3)
                 ++ filter (λ idx, idx ∉ seqZ 0 (Z.of_nat 3)) (py_range 0 (3 + 1))
    ∧ (∀ idx, (0 ≤ idx ≤ 3)%Z →
         at_get df idx "order_quantity" = Return (qty_per_slice (mkTWAP (qz 9) 0 3)))
    ∧ (∀ idx, (0 ≤ idx < Z.of_nat 3)%Z → ¬ (0 ≤ idx ≤ 3)%Z →
         at_get df idx "order_quantity" = Return (Fin 0)).
Proof.
  apply (C8_generate_orders_enlarges scenario_market 3 (mkTWAP (qz 9) 0 3)).
  reflexivity.
Defined.

(** C8 as stated fails: on the three-period series, a window ending at
    label 3 raises nothing; the call returns a frame with a fourth row,
    labelled 3, whose order quantity is the per-slice quantity and whose
    price and volume are NaN. *)
Lemma C8_out_of_range_not_rejected :
  ¬ raises (generate_orders (mkTWAP (qz 9) 0 3) scenario_market)
  ∧ generate_orders (mkTWAP (qz 9) 0 3) scenario_market
    = Return (mkDF [0; 1; 2; 3]%Z
        (<["order_quantity" := replicate 4 (Fin (Qc_of_Z 9 / Qc_of_Z 4))]>
        (<["price" := [qz 10; qz 20; qz 30; NaN]]>
        (<["volume" := [qz 5; qz 5; qz 5; NaN]]> ∅)))).
Proof.
  assert (generate_orders (mkTWAP (qz 9) 0 3) scenario_market
    = Return (mkDF [0; 1; 2; 3]%Z
        (<["order_quantity" := replicate 4 (Fin (Qc_of_Z 9 / Qc_of_Z 4))]>
        (<["price" := [qz 10; qz 20; qz 30; NaN]]>
        (<["volume" := [qz 5; qz 5; qz 5; NaN]]> ∅))))) as H.
  { apply (bool_decide_unpack _). vm_compute. exact I. }
  split; [|exact H]. intros [e He]. rewrite H in He. discriminate.
Qed.

(** ** Writing to a cell that exists *)

Section at_set_present.
Context (df : DataFrame) (idx : Z) (col : string) (v : num).
Hypothesis Hwf : wf_frame df.
Hypothesis Hin : idx ∈ index df.
Hypothesis Hcol : is_Some (columns df !! col).

Lemma at_set_present_eq :
  ∃ i s, get_loc idx (index df) = Some i ∧ columns df !! col = Some s
         ∧ (i < length s)%nat
         ∧ at_set df idx col v
           = mkDF (index df) (<[col := <[i := v]> s]> (columns df)).
Proof.
  destruct Hcol as [s Hs]. destruct Hwf as [Hnd Hlen].
  destruct (get_loc idx (index df)) as [i|] eqn:Hi.
  - exists i, s. split; [done|]. split; [done|]. split.
    + rewrite (Hlen _ _ Hs). by eapply get_loc_lt.
    + by apply at_set_present.
  - by apply get_loc_None in Hi.
Qed.

Lemma index_at_set_present : index (at_set df idx col v) = index df.
Proof. destruct at_set_present_eq as (i & s & _ & _ & _ & ->). done. Qed.

Lemma columns_at_set_present c :
  is_Some (columns (at_set df idx col v) !! c) ↔ is_Some (columns df !! c).
Proof.
  destruct at_set_present_eq as (i & s & _ & Hs & _ & ->). cbn.
  rewrite lookup_insert. case_decide; subst; [|done].
  rewrite Hs. split; eauto.
Qed.

Lemma columns_at_set_present_ne c :
  c ≠ col → columns (at_set df idx col v) !! c = columns df !! c.
Proof.
  intros Hne. destruct at_set_present_eq as (i & s & _ & Hs & _ & ->). cbn.
  by rewrite lookup_insert_ne.
Qed.

Lemma wf_at_set_present : wf_frame (at_set df idx col v).
Proof.
  destruct at_set_present_eq as (i & s & _ & Hs & _ & ->).
  destruct Hwf as [Hnd Hlen]. split; [done|]. cbn. intros c s'.
  rewrite lookup_insert. case_decide; subst.
  - intros [= <-]. rewrite length_insert. eauto.
  - eauto.
Qed.

Lemma at_get_at_set_present idx' col' :
  at_get (at_set df idx col v) idx' col'
  = if decide (idx' = idx ∧ col' = col) then Return v else at_get df idx' col'.
Proof.
  destruct at_set_present_eq as (i & s & Hi & Hs & Hlt & ->).
  unfold at_get. cbn. rewrite lookup_insert.
  destruct (decide (col = col')) as [<-|Hc].
  - rewrite Hs. destruct (decide (idx' = idx)) as [->|Hne].
    + rewrite decide_True by done. by rewrite Hi, list_lookup_insert_eq.
    + rewrite decide_False by tauto.
      destruct (get_loc idx' (index df)) as [j|] eqn:Hj; [|done].
      rewrite list_lookup_insert_ne; [done|].
      intros ->. apply get_loc_Some in Hi, Hj. congruence.
  - rewrite decide_False; [done|]. intros [_ ?]. congruence.
Qed.
End at_set_present.

Lemma at_get_total df idx col :
  wf_frame df → idx ∈ index df → is_Some (columns df !! col) →
  ∃ i s v, get_loc idx (index df) = Some i ∧ columns df !! col = Some s
           ∧ s !! i = Some v ∧ at_get df idx col = Return v.
Proof.
  intros [Hnd Hlen] Hin [s Hs].
  destruct (get_loc idx (index df)) as [i|] eqn:Hi.
  - destruct (lookup_lt_is_Some_2 s i) as [v Hv].
    { rewrite (Hlen _ _ Hs). by eapply get_loc_lt. }
    exists i, s, v. repeat split; try done. by eapply at_get_present.
  - by apply get_loc_None in Hi.
Qed.

Lemma at_get_missing_row df idx col :
  is_Some (columns df !! col) → idx ∉ index df →
  at_get df idx col = Raise (KeyError (Row idx)).
Proof.
  intros [s Hs] Hin. unfold at_get. rewrite Hs.
  apply get_loc_None in Hin. by rewrite Hin.
Qed.

(** ** One period of [run] *)

Lemma exec_ready_at_set md idx col v :
  exec_ready md → idx ∈ index md → is_Some (columns md !! col) →
  exec_ready (at_set md idx col v).
Proof.
  intros [Hwf Hcols] Hin Hc. split; [by apply wf_at_set_present|].
  intros c Hcin. apply columns_at_set_present; auto.
Qed.

Lemma exec_ready_col md c :
  exec_ready md → c ∈ ["price"; "volume"] ++ exec_columns →
  is_Some (columns md !! c).
Proof. intros [_ H]. apply H. Qed.

(** Closed decidable goals, such as membership of a literal column name. *)
Ltac closed_dec := apply (bool_decide_unpack _); vm_compute; exact I.

Ltac exec_col :=
  match goal with
  | H : exec_ready ?md |- is_Some (columns ?md !! ?c) =>
      apply (exec_ready_col md c H); closed_dec
  end.

Lemma fill_steps md idx s p :
  exec_ready md → idx ∈ index md →
  let md1 := at_set md idx "expected_price" p in
  let md2 := at_set md1 idx "executed_price" (fmul p (fadd (Fin 1) s)) in
  exec_ready md1 ∧ index md1 = index md ∧ exec_ready md2 ∧ index md2 = index md.
Proof.
  intros Hr Hin md1 md2.
  assert (exec_ready md1) as H1
    by (apply exec_ready_at_set; [done..| exec_col]).
  assert (index md1 = index md) as E1
    by (apply index_at_set_present; [apply Hr | done | exec_col]).
  assert (exec_ready md2) as H2
    by (apply exec_ready_at_set; [done | by rewrite E1 | exec_col]).
  repeat split; try done; try apply H1; try apply H2.
  unfold md2. rewrite index_at_set_present; [done | apply H1 | by rewrite E1 | exec_col].
Qed.

Lemma exec_ready_fill md idx s q p v :
  exec_ready md → idx ∈ index md →
  exec_ready (fill_period md idx s q p v)
  ∧ index (fill_period md idx s q p v) = index md.
Proof.
  intros Hr Hin. unfold fill_period.
  destruct (fill_steps md idx s p Hr Hin) as (H1 & E1 & H2 & E2).
  split.
  - apply exec_ready_at_set; [done | by rewrite E2 | exec_col].
  - rewrite index_at_set_present; [done | apply H2 | by rewrite E2 | exec_col].
Qed.

Lemma at_get_fill md idx s q p v idx' col :
  exec_ready md → idx ∈ index md →
  at_get (fill_period md idx s q p v) idx' col
  = if decide (idx' = idx ∧ col = "executed_quantity") then Return (py_min q v)
    else if decide (idx' = idx ∧ col = "executed_price")
         then Return (fmul p (fadd (Fin 1) s))
    else if decide (idx' = idx ∧ col = "expected_price") then Return p
    else at_get md idx' col.
Proof.
  intros Hr Hin. unfold fill_period.
  destruct (fill_steps md idx s p Hr Hin) as (H1 & E1 & H2 & E2).
  rewrite at_get_at_set_present; [| apply H2 | by rewrite E2 | exec_col].
  case_decide; [done|].
  rewrite at_get_at_set_present; [| apply H1 | by rewrite E1 | exec_col].
  case_decide; [done|].
  rewrite at_get_at_set_present; [done | apply Hr | done | exec_col].
Qed.

Lemma columns_fill md idx s q p v c :
  exec_ready md → idx ∈ index md →
  (is_Some (columns (fill_period md idx s q p v) !! c) ↔ is_Some (columns md !! c))
  ∧ (c ∉ exec_columns → columns (fill_period md idx s q p v) !! c = columns md !! c).
Proof.
  intros Hr Hin. unfold fill_period.
  destruct (fill_steps md idx s p Hr Hin) as (H1 & E1 & H2 & E2).
  split.
  - rewrite columns_at_set_present; [| apply H2 | by rewrite E2 | exec_col].
    rewrite columns_at_set_present; [| apply H1 | by rewrite E1 | exec_col].
    rewrite columns_at_set_present; [done | apply Hr | done | exec_col].
  - intros Hc.
    rewrite columns_at_set_present_ne;
      [| apply H2 | by rewrite E2 | exec_col | intros ->; apply Hc; closed_dec].
    rewrite columns_at_set_present_ne;
      [| apply H1 | by rewrite E1 | exec_col | intros ->; apply Hc; closed_dec].
    rewrite columns_at_set_present_ne;
      [done | apply Hr | done | exec_col | intros ->; apply Hc; closed_dec].
Qed.

Lemma run_row_skip s idx row q md :
  row !! "order_quantity" = Some q → fgt q (Fin 0) = false →
  run_row s (idx, row) md = (Return (), md).
Proof.
  intros Hq Hz. unfold run_row, row_get, lift_res, mbind, M_bind.
  by rewrite Hq, Hz.
Qed.

Lemma run_row_fill s idx row q p v md :
  exec_ready md → idx ∈ index md →
  row !! "order_quantity" = Some q → fgt q (Fin 0) = true →
  at_get md idx "price" = Return p →
  at_get md idx "volume" = Return v →
  run_row s (idx, row) md = (Return (), fill_period md idx s q p v).
Proof.
  intros Hr Hin Hq Hpos Hp Hv.
  unfold run_row, row_get, lift_res, read_at, write_at, mbind, M_bind.
  rewrite Hq, Hpos, Hv, Hp.
  rewrite at_get_at_set_present; [| apply Hr | done | exec_col].
  rewrite decide_False by (intros [_ ?]; discriminate).
  by rewrite Hp.
Qed.

Lemma run_row_missing s idx row q md :
  is_Some (columns md !! "volume") → idx ∉ index md →
  row !! "order_quantity" = Some q → fgt q (Fin 0) = true →
  run_row s (idx, row) md = (Raise (KeyError (Row idx)), md).
Proof.
  intros Hc Hin Hq Hpos.
  unfold run_row, row_get, lift_res, read_at, mbind, M_bind.
  by rewrite Hq, Hpos, at_get_missing_row.
Qed.

(** ** The loop of [run] *)

Lemma for_each_app {A} (body : A → M unit) (l1 l2 : list A) : ∀ md,
  for_each (l1 ++ l2) body md
  = match for_each l1 body md with
    | (Raise e, md1) => (Raise e, md1)
    | (Return _, md1) => for_each l2 body md1
    end.
Proof.
  induction l1 as [|x l1 IH]; intros md; [done|].
  cbn. unfold mbind, M_bind. destruct (body x md) as [[e|[]] md1]; [done|].
  apply IH.
Qed.

Lemma run_loop_ok s (l : list (Z * gmap string num)) : ∀ md,
  exec_ready md →
  Forall (λ r, is_Some (r.2 !! "order_quantity")
               ∧ unmatched (index md) r = false) l →
  ∃ md', for_each l (run_row s) md = (Return (), md')
    ∧ exec_ready md' ∧ index md' = index md
    ∧ (∀ c, c ∉ exec_columns → columns md' !! c = columns md !! c)
    ∧ (∀ idx, (∀ r, r ∈ l → r.1 = idx → ordered r = false) →
         ∀ col, at_get md' idx col = at_get md idx col)
    ∧ (NoDup l.*1 → ∀ idx row q p v,
         (idx, row) ∈ l → row !! "order_quantity" = Some q →
         fgt q (Fin 0) = true →
         at_get md idx "price" = Return p →
         at_get md idx "volume" = Return v →
         at_get md' idx "expected_price" = Return p
         ∧ at_get md' idx "executed_price" = Return (fmul p (fadd (Fin 1) s))
         ∧ at_get md' idx "executed_quantity" = Return (py_min q v)).
Proof.
  induction l as [|[idx0 row0] l IH]; intros md Hr Hall.
  { exists md. do 5 (split; [done|]).
    intros _ idx row q p v Hrow. by apply elem_of_nil in Hrow. }
  apply Forall_cons_1 in Hall as [[[q0 Hq0] Hm0] Hall]. cbn in Hq0.
  destruct (fgt q0 (Fin 0)) eqn:Hpos.
  - (* the row places an order *)
    assert (idx0 ∈ index md) as Hin.
    { unfold unmatched, ordered in Hm0. cbn [fst snd] in Hm0.
      rewrite Hq0, Hpos in Hm0. cbn [andb] in Hm0.
      apply bool_decide_eq_false in Hm0.
      by destruct (decide (idx0 ∈ index md)). }
    destruct (at_get_total md idx0 "price") as (? & ? & p0 & _ & _ & _ & Hp0);
      [apply Hr | done | exec_col |].
    destruct (at_get_total md idx0 "volume") as (? & ? & v0 & _ & _ & _ & Hv0);
      [apply Hr | done | exec_col |].
    destruct (exec_ready_fill md idx0 s q0 p0 v0 Hr Hin) as [Hr1 E1].
    destruct (IH (fill_period md idx0 s q0 p0 v0) Hr1) as
      (md' & Hrun & Hr' & E' & Hcols & Hkeep & Hfill).
    { by rewrite E1. }
    exists md'. split.
    { cbn [for_each]. unfold mbind, M_bind.
      by rewrite (run_row_fill s idx0 row0 q0 p0 v0). }
    split; [done|]. split; [congruence|]. split; [|split].
    + intros c Hc. rewrite Hcols by done. by apply columns_fill.
    + intros idx Hidx col.
      assert (idx ≠ idx0) as Hne.
      { intros ->. assert (ordered (idx0, row0) = false) as Hno
          by (apply Hidx; [by left | done]).
        unfold ordered in Hno. cbn [snd] in Hno. rewrite Hq0 in Hno. congruence. }
      rewrite Hkeep.
      * rewrite at_get_fill by done. by rewrite !decide_False by tauto.
      * intros r Hrin. apply Hidx. by right.
    + intros Hnd idx row q p v Hrow Hq Hq1 Hp Hv.
      cbn in Hnd. apply list.NoDup_cons in Hnd as [Hfresh Hnd].
      apply elem_of_cons in Hrow as [[= -> ->]|Hrow].
      * assert (q = q0) as -> by congruence.
        assert (p = p0) as -> by congruence.
        assert (v = v0) as -> by congruence.
        rewrite !Hkeep.
        2-4: intros r Hrin <-; destruct Hfresh; apply list_elem_of_fmap;
             by exists r.
        rewrite !at_get_fill by done.
        rewrite decide_False by (intros [_ ?]; discriminate).
        rewrite decide_False by (intros [_ ?]; discriminate).
        rewrite decide_True by done.
        rewrite decide_False by (intros [_ ?]; discriminate).
        rewrite decide_True by done.
        by rewrite decide_True by done.
      * assert (idx ≠ idx0) as Hne.
        { intros ->. destruct Hfresh. apply list_elem_of_fmap.
          by exists (idx0, row). }
        apply (Hfill Hnd idx row q p v); try done.
        -- rewrite at_get_fill by done. by rewrite !decide_False by tauto.
        -- rewrite at_get_fill by done. by rewrite !decide_False by tauto.
  - (* the row places no order *)
    destruct (IH md Hr Hall) as (md' & Hrun & Hr' & E' & Hcols & Hkeep & Hfill).
    exists md'. split.
    { cbn [for_each]. unfold mbind, M_bind.
      by rewrite (run_row_skip s idx0 row0 q0). }
    split; [done|]. split; [done|]. split; [done|]. split.
    + intros idx Hidx col. apply Hkeep. intros r Hrin. apply Hidx. by right.
    + intros Hnd idx row q p v Hrow Hq Hq1 Hp Hv.
      cbn in Hnd. apply list.NoDup_cons in Hnd as [Hfresh Hnd].
      apply elem_of_cons in Hrow as [[= -> ->]|Hrow]; [congruence|].
      by apply (Hfill Hnd idx row q p v).
Qed.

(** ** The constructor and the rows of a schedule *)

Lemma wf_setitem_scalar df col v :
  wf_frame df → wf_frame (setitem_scalar df col v).
Proof.
  intros [Hnd Hlen]. split; [done|]. cbn. intros c s.
  rewrite lookup_insert. case_decide; subst; [|by eauto].
  intros [= <-]. apply length_replicate.
Qed.

Lemma init_columns md s c :
  columns (market_data (Backtester_init md s)) !! c
  = if decide (c ∈ exec_columns)
    then Some (replicate (length (index md))
                 (if decide (c = "executed_quantity") then Fin 0 else NaN))
    else columns md !! c.
Proof.
  unfold Backtester_init, setitem_scalar. cbn [market_data columns index].
  destruct (decide (c ∈ exec_columns)) as [Hc|Hc].
  - unfold exec_columns in Hc. rewrite !elem_of_cons in Hc.
    destruct Hc as [->|[->|[->|Hc]]];
      [rewrite !lookup_insert; by repeat case_decide..|].
    by apply elem_of_nil in Hc.
  - rewrite !lookup_insert_ne; [done|..]; intros <-; apply Hc; closed_dec.
Qed.

Lemma init_index md s : index (market_data (Backtester_init md s)) = index md.
Proof. done. Qed.

Lemma init_exec_ready md s :
  wf_frame md →
  is_Some (columns md !! "price") → is_Some (columns md !! "volume") →
  exec_ready (market_data (Backtester_init md s)).
Proof.
  intros Hwf Hp Hv. split.
  - unfold Backtester_init. cbn. by do 3 apply wf_setitem_scalar.
  - intros c Hc. rewrite init_columns. case_decide as Hx; [done|].
    change (c ∈ "price" :: "volume" :: exec_columns) in Hc.
    rewrite !elem_of_cons in Hc. by destruct Hc as [->|[->|Hc]].
Qed.

Lemma init_at_get md s idx c :
  idx ∈ index md →
  c ∈ exec_columns →
  at_get (market_data (Backtester_init md s)) idx c
  = Return (if decide (c = "executed_quantity") then Fin 0 else NaN).
Proof.
  intros Hin Hc. unfold at_get. rewrite init_columns, decide_True by done.
  rewrite init_index. destruct (get_loc idx (index md)) as [i|] eqn:Hi.
  - rewrite lookup_replicate_2; [done|]. by eapply get_loc_lt.
  - by apply get_loc_None in Hi.
Qed.

Lemma init_at_get_other md s idx c :
  c ∉ exec_columns →
  at_get (market_data (Backtester_init md s)) idx c = at_get md idx c.
Proof.
  intros Hc. unfold at_get. by rewrite init_columns, decide_False, init_index.
Qed.

Lemma iterrows_labels df : (iterrows df).*1 = index df.
Proof.
  unfold iterrows. apply list_eq. intros i.
  rewrite list_lookup_fmap, list_lookup_imap.
  by destruct (index df !! i).
Qed.

Lemma elem_of_iterrows df idx row :
  (idx, row) ∈ iterrows df ↔
  ∃ i, index df !! i = Some idx ∧ row = row_at df i.
Proof.
  unfold iterrows. rewrite list_elem_of_lookup.
  setoid_rewrite list_lookup_imap. split.
  - intros [i Hi]. exists i. destruct (index df !! i); naive_solver.
  - intros (i & Hi & ->). exists i. by rewrite Hi.
Qed.

Lemma row_at_lookup df i col :
  row_at df i !! col = columns df !! col ≫= λ s, s !! i.
Proof. unfold row_at. by rewrite lookup_omap. Qed.

Lemma iterrows_order_quantity df qs :
  columns df !! "order_quantity" = Some qs →
  length qs = length (index df) →
  ∀ r, r ∈ iterrows df → is_Some (r.2 !! "order_quantity").
Proof.
  intros Hq Hlen [idx row] (i & Hi & ->)%elem_of_iterrows. cbn.
  rewrite row_at_lookup, Hq. cbn. apply lookup_lt_is_Some.
  rewrite Hlen. by eapply lookup_lt_Some.
Qed.

Lemma py_min_Fin (a b : Qc) :
  py_min (Fin a) (Fin b) = Fin (if decide (b < a) then b else a).
Proof. unfold py_min, flt. by case_bool_decide; case_decide. Qed.

Lemma run_outcome_ok self orders md' :
  for_each (iterrows orders) (run_row (slippage_factor self)) (market_data self)
  = (Return (), md') →
  run self orders = (Return md', mkBacktester md' (slippage_factor self)).
Proof. intros H. unfold run. by rewrite H. Qed.

(** ** C1: what [run] records for each period *)




(** The schedule [3, 0, 7] against volumes of 5: the third order is cut to
    the volume, and nothing of it is carried anywhere. *)
Example run_caps_at_volume :
  (run (Backtester_init scenario_market tenth)
       (schedule_frame [qz 3; qz 0; qz 7])).1
  ≫= (λ md, getitem md "executed_quantity")
  = Return [qz 3; qz 0; qz 5].
Proof. apply (bool_decide_unpack _). vm_compute. exact I. Qed.

(** ** C7: schedules that do not line up with the series *)

Lemma unmatched_true ix r :
  unmatched ix r = true →
  ∃ q, r.2 !! "order_quantity" = Some q ∧ fgt q (Fin 0) = true ∧ r.1 ∉ ix.
Proof.
  unfold unmatched, ordered. intros [Ho Hm]%andb_true_iff.
  destruct (r.2 !! "order_quantity") as [q|]; [|done].
  exists q. by apply bool_decide_eq_true in Hm.
Qed.

Lemma run_loop_raise s (l1 l2 : list (Z * gmap string num)) r md :
  exec_ready md →
  Forall (λ r, is_Some (r.2 !! "order_quantity")
               ∧ unmatched (index md) r = false) l1 →
  unmatched (index md) r = true →
  ∃ md', for_each (l1 ++ r :: l2) (run_row s) md
         = (Raise (KeyError (Row r.1)), md')
    ∧ exec_ready md' ∧ index md' = index md.
Proof.
  intros Hr Hall (q & Hq & Hpos & Hnin)%unmatched_true.
  destruct (run_loop_ok s l1 md Hr Hall) as (md1 & Hrun & Hr1 & E1 & _).
  exists md1. split; [|done].
  rewrite for_each_app, Hrun. cbn [for_each]. unfold mbind, M_bind.
  destruct r as [idx row]. cbn [fst snd] in *.
  rewrite (run_row_missing s idx row q); [done | exec_col | by rewrite E1 | done..].
Qed.

(** C7, as the code behaves.  [run] has no alignment check.  It raises only
    when it reaches a schedule row with [order_quantity > 0] whose label is
    not a label of the market series, and then the fault is the [KeyError]
    of that label.  Otherwise it returns normally whatever the two lengths
    are: schedule rows without a positive quantity are skipped even when
    their label is unknown, and a period of the series for which the
    schedule has no row is left as a period without an order ([NaN], [NaN],
    0). *)
Theorem C7_run_misaligned (market orders : DataFrame) (s : num) (qs : list num) :
  wf_frame market →
  is_Some (columns market !! "price") →
  is_Some (columns market !! "volume") →
  columns orders !! "order_quantity" = Some qs →
  length qs = length (index orders) →
  match list_find (λ r, unmatched (index market) r = true) (iterrows orders) with
  | Some (_, r) =>
      (run (Backtester_init market s) orders).1 = Raise (KeyError (Row r.1))
  | None =>
      ∃ md', run (Backtester_init market s) orders
             = (Return md', mkBacktester md' s)
        ∧ index md' = index market
        ∧ ∀ idx, idx ∈ index market → idx ∉ index orders →
            at_get md' idx "expected_price" = Return NaN
            ∧ at_get md' idx "executed_price" = Return NaN
            ∧ at_get md' idx "executed_quantity" = Return (Fin 0)
  end.
Proof.
  intros Hwf Hprice Hvol Hqs Hlen.
  pose proof (init_exec_ready market s Hwf Hprice Hvol) as Hr.
  pose proof (iterrows_order_quantity orders qs Hqs Hlen) as Hrows.
  destruct (list_find _ _) as [[i r]|] eqn:Hfind.
  - apply list_find_Some in Hfind as (Hi & Hun & Hbefore).
    unfold run. change (slippage_factor (Backtester_init market s)) with s.
    rewrite <- (take_drop_middle _ _ _ Hi).
    destruct (run_loop_raise s (take i (iterrows orders))
                (drop (S i) (iterrows orders)) r _ Hr) as (md' & Hrun & _).
    + apply list.Forall_forall. intros r' Hr'.
      apply list_elem_of_lookup in Hr' as [j Hj].
      apply lookup_take_Some in Hj as [Hj Hlt]. split.
      * apply Hrows. by eapply list_elem_of_lookup_2.
      * rewrite init_index. apply not_true_is_false. by eapply Hbefore.
    + by rewrite init_index.
    + by rewrite Hrun.
  - apply list_find_None in Hfind.
    destruct (run_loop_ok s (iterrows orders) _ Hr) as
      (md' & Hrun & Hr' & E' & Hcols & Hkeep & _).
    { apply list.Forall_forall. intros r Hrin. split; [by apply Hrows|].
      rewrite init_index. apply not_true_is_false.
      by apply (proj1 (list.Forall_forall _ _) Hfind). }
    exists md'. split; [by apply (run_outcome_ok (Backtester_init market s))|].
    split; [by rewrite E'|].
    intros idx Hin Hnin. rewrite !Hkeep.
    + by rewrite !init_at_get by (done || closed_dec).
    + intros r Hrin <-. destruct Hnin. rewrite <- iterrows_labels.
      apply list_elem_of_fmap. by exists r.
    + intros r Hrin <-. destruct Hnin. rewrite <- iterrows_labels.
      apply list_elem_of_fmap. by exists r.
    + intros r Hrin <-. destruct Hnin. rewrite <- iterrows_labels.
      apply list_elem_of_fmap. by exists r.
Qed.

Lemma C7_run_misaligned_witness :
  let market := scenario_market in
  let orders := schedule_frame [qz 3; qz 3; qz 3; qz 2] in
  match list_find (λ r, unmatched (index market) r = true) (iterrows orders) with
  | Some (_, r) =>
      (run (Backtester_init market tenth) orders).1 = Raise (KeyError (Row r.1))
  | None =>
      ∃ md', run (Backtester_init market tenth) orders
             = (Return md', mkBacktester md' tenth)
        ∧ index md' = index market
        ∧ ∀ idx, idx ∈ index market → idx ∉ index orders →
            at_get md' idx "expected_price" = Return NaN
            ∧ at_get md' idx "executed_price" = Return NaN
            ∧ at_get md' idx "executed_quantity" = Return (Fin 0)
  end.
Proof.
  apply (C7_run_misaligned scenario_market
           (schedule_frame [qz 3; qz 3; qz 3; qz 2]) tenth
           [qz 3; qz 3; qz 3; qz 2]).
  - apply (bool_decide_unpack _). vm_compute. exact I.
  - apply (bool_decide_unpack _). vm_compute. exact I.
  - apply (bool_decide_unpack _). vm_compute. exact I.
  - reflexivity.
  - reflexivity.
Defined.

(** C7 as stated fails: against the three-period series, a schedule of two
    rows and a schedule of four rows (the fourth with quantity 0) are both
    accepted without any fault.  With the short schedule the third period is
    silently treated as a period without an order. *)
Lemma C7_misaligned_not_rejected :
  let bt := Backtester_init scenario_market tenth in
  let short := schedule_frame [qz 3; qz 3] in
  let long := schedule_frame [qz 3; qz 3; qz 3; qz 0] in
  length (index short) ≠ length (index scenario_market)
  ∧ length (index long) ≠ length (index scenario_market)
  ∧ ¬ raises (run bt short).1
  ∧ ¬ raises (run bt long).1
  ∧ ∃ md', (run bt short).1 = Return md'
      ∧ columns md' !! "executed_quantity" = Some [qz 3; qz 3; qz 0]
      ∧ columns md' !! "executed_price" = Some [qz 11; qz 22; NaN].
Proof.
  intros bt short long.
  assert ((run bt short).1 = Return (market_data (run bt short).2)) as Hs
    by (apply (bool_decide_unpack _); vm_compute; exact I).
  assert ((run bt long).1 = Return (market_data (run bt long).2)) as Hl
    by (apply (bool_decide_unpack _); vm_compute; exact I).
  split; [by vm_compute|]. split; [by vm_compute|].
  split; [intros [e He]; rewrite Hs in He; discriminate|].
  split; [intros [e He]; rewrite Hl in He; discriminate|].
  exists (market_data (run bt short).2). split; [exact Hs|].
  split; apply (bool_decide_unpack _); vm_compute; exact I.
Qed.

(** ** The filled set *)

Lemma mask_select_nil_r {A} (m : list bool) : mask_select m (@nil A) = [].
Proof. by destruct m. Qed.

Lemma mask_select_twice {A B} (f : B → bool) (m : list bool) :
  ∀ (qs : list B) (l : list A),
  mask_select (f <$> mask_select m qs) (mask_select m l)
  = mask_select (zip_with (λ b q, b && f q) m qs) l.
Proof.
  induction m as [|b m IH]; intros qs l; [done|].
  destruct qs as [|q qs]; [done|].
  destruct l as [|x l].
  { cbn. by rewrite !mask_select_nil_r. }
  destruct b; cbn.
  - destruct (f q); cbn; by rewrite IH.
  - apply IH.
Qed.

Lemma zip_with_fmap_mask (eps eqs : list num) :
  zip_with (λ (b : bool) q, b && fgt q (Fin 0)) (notna <$> eps) eqs
  = filled_mask eps eqs.
Proof.
  unfold filled_mask. revert eqs.
  induction eps as [|e eps IH]; intros [|q eqs]; cbn; by rewrite ?IH.
Qed.

Lemma executed_rows_eq md eps eqs :
  columns md !! "executed_price" = Some eps →
  columns md !! "executed_quantity" = Some eqs →
  executed_rows md = Return (select_rows (filled_mask eps eqs) md).
Proof.
  intros Hep Heq. unfold executed_rows, dropna, getitem.
  rewrite Hep. cbn. rewrite lookup_fmap, Heq. cbn.
  unfold select_rows. cbn. f_equal. f_equal.
  - by rewrite mask_select_twice, zip_with_fmap_mask.
  - rewrite <- map_fmap_compose. apply map_fmap_ext. intros c col _. cbn.
    by rewrite mask_select_twice, zip_with_fmap_mask.
Qed.

Lemma select_rows_column mask md c col :
  columns md !! c = Some col →
  getitem (select_rows mask md) c = Return (mask_select mask col).
Proof. intros H. unfold getitem, select_rows. cbn. by rewrite lookup_fmap, H. Qed.

Lemma mask_select_all_false {A} (m : list bool) (l : list A) :
  Forall (λ b, b = false) m → mask_select m l = [].
Proof.
  revert l. induction m as [|b m IH]; intros l Hm; [done|].
  apply Forall_cons_1 in Hm as [-> Hm]. destruct l; [done|]. cbn. by apply IH.
Qed.

Lemma mask_select_some_true {A} (m : list bool) (l : list A) i :
  m !! i = Some true → (i < length l)%nat → mask_select m l ≠ [].
Proof.
  revert l i. induction m as [|b m IH]; intros l i Hi Hlt; [done|].
  destruct l as [|x l]; [cbn in Hlt; lia|].
  destruct b; [done|]. destruct i as [|i]; [done|].
  cbn. apply (IH l i); [done | cbn in Hlt; lia].
Qed.

Lemma empty_select_rows mask md c col :
  columns md !! c = Some col →
  empty_frame (select_rows mask md)
  = bool_decide (mask_select mask (index md) = []).
Proof.
  intros Hc. unfold empty_frame, select_rows. cbn.
  rewrite (bool_decide_eq_false_2 (_ <$> _ = ∅)); [apply orb_false_r|].
  intros Hempty. apply (f_equal (λ m, m !! c)) in Hempty.
  by rewrite lookup_fmap, Hc, lookup_empty in Hempty.
Qed.

Lemma filled_mask_lookup eps eqs i :
  filled_mask eps eqs !! i
  = e ← eps !! i; q ← eqs !! i; Some (notna e && fgt q (Fin 0)).
Proof. unfold filled_mask. by rewrite lookup_zip_with. Qed.

Lemma run_loop_idle s (l : list (Z * gmap string num)) md :
  Forall (λ r, ∃ q, r.2 !! "order_quantity" = Some q ∧ fgt q (Fin 0) = false) l →
  for_each l (run_row s) md = (Return (), md).
Proof.
  induction l as [|[idx row] l IH]; intros Hall; [done|].
  apply Forall_cons_1 in Hall as [(q & Hq & Hz) Hall].
  cbn [for_each]. unfold mbind, M_bind.
  rewrite (run_row_skip s idx row q) by done. by apply IH.
Qed.

(** ** C4: no period filled *)

(** C4.  Whenever the working frame has no period with both a positive
    executed quantity and a defined executed price, [calculate_metrics]
    returns [execution_cost = None], [slippage = None], [fill_rate = 0] and
    raises nothing, whatever the benchmark type and whether or not the frame
    has an order column.  In particular this is the result after running a
    schedule none of whose quantities is positive. *)
Theorem C4_no_fill_metrics :
  (∀ (self : Backtester) (benchmark_type : string) (eps eqs : list num),
     columns (market_data self) !! "executed_price" = Some eps →
     columns (market_data self) !! "executed_quantity" = Some eqs →
     (∀ i e q, eps !! i = Some e → eqs !! i = Some q →
               ¬ (fgt q (Fin 0) = true ∧ isnan e = false)) →
     calculate_metrics self benchmark_type = Return (mkMetrics None None (Fin 0)))
  ∧ (∀ (market orders : DataFrame) (s : num) (qs : list num)
       (benchmark_type : string),
     columns orders !! "order_quantity" = Some qs →
     length qs = length (index orders) →
     Forall (λ q, fgt q (Fin 0) = false) qs →
     ∃ self', run (Backtester_init market s) orders
              = (Return (market_data self'), self')
       ∧ calculate_metrics self' benchmark_type
         = Return (mkMetrics None None (Fin 0))).
Proof.
  assert (∀ (self : Backtester) (benchmark_type : string) (eps eqs : list num),
     columns (market_data self) !! "executed_price" = Some eps →
     columns (market_data self) !! "executed_quantity" = Some eqs →
     (∀ i e q, eps !! i = Some e → eqs !! i = Some q →
               ¬ (fgt q (Fin 0) = true ∧ isnan e = false)) →
     calculate_metrics self benchmark_type
     = Return (mkMetrics None None (Fin 0))) as Hgen.
  { intros self bt eps eqs Hep Heq Hnone. unfold calculate_metrics.
    rewrite (executed_rows_eq _ eps eqs) by done. cbn [mbind res_bind].
    rewrite (empty_select_rows _ _ _ _ Hep), mask_select_all_false; [done|].
    apply list.Forall_forall. intros b Hb.
    apply list_elem_of_lookup in Hb as [i Hi].
    rewrite filled_mask_lookup in Hi.
    destruct (eps !! i) as [e|] eqn:He; [|done].
    destruct (eqs !! i) as [q|] eqn:Hq; [|done].
    change (Some (notna e && fgt q (Fin 0)) = Some b) in Hi.
    specialize (Hnone i e q He Hq). unfold notna in Hi.
    destruct (isnan e), (fgt q (Fin 0)); cbn in Hi; try congruence.
    by destruct Hnone. }
  split; [exact Hgen|].
  intros market orders s qs bt Hqs Hlen Hzero.
  exists (Backtester_init market s).
  assert (run (Backtester_init market s) orders
          = (Return (market_data (Backtester_init market s)),
             Backtester_init market s)) as Hrun.
  { unfold run. rewrite run_loop_idle; [done|].
    apply list.Forall_forall. intros [idx row] (i & Hi & ->)%elem_of_iterrows.
    cbn [snd]. rewrite row_at_lookup, Hqs. cbn.
    destruct (lookup_lt_is_Some_2 qs i) as [q Hq].
    { rewrite Hlen. by eapply lookup_lt_Some. }
    exists q. split; [done|].
    apply (proj1 (list.Forall_forall _ _) Hzero). by eapply list_elem_of_lookup_2. }
  split; [exact Hrun|].
  eapply Hgen.
  - rewrite init_columns, decide_True by closed_dec. done.
  - rewrite init_columns, decide_True by closed_dec. done.
  - intros i e q [-> _]%lookup_replicate _ [_ Hnan]. done.
Qed.

Lemma C4_no_fill_metrics_witness :
  ∃ self', run (Backtester_init scenario_market tenth)
               (schedule_frame [qz 0; qz 0; qz 0])
           = (Return (market_data self'), self')
    ∧ calculate_metrics self' "VWAP" = Return (mkMetrics None None (Fin 0)).
Proof.
  apply (proj2 C4_no_fill_metrics scenario_market
           (schedule_frame [qz 0; qz 0; qz 0]) tenth [qz 0; qz 0; qz 0] "VWAP").
  - reflexivity.
  - reflexivity.
  - apply (bool_decide_unpack _). vm_compute. exact I.
Defined.

(** ** Metrics over records *)

Lemma filled_mask_records (ps : list period) :
  filled_mask ((λ p, cell (executed_price p)) <$> ps)
              ((λ p, Fin (executed_quantity p)) <$> ps)
  = (λ p, bool_decide (is_filled p)) <$> ps.
Proof.
  unfold filled_mask. induction ps as [|p ps IH]; [done|].
  rewrite !fmap_cons. cbn [zip_with]. rewrite IH. f_equal.
  destruct p as [pr vo oq eq [x|] xp]; unfold notna, fgt, flt; cbn.
  - case_bool_decide as H1; case_bool_decide as H2; try done.
    + destruct H2. split; [done | by eexists].
    + by destruct H2.
  - case_bool_decide as H2; [|done]. destruct H2 as [_ [? ?]]. done.
Qed.

Lemma mask_select_filled {A} (f : period → A) (ps : list period) :
  mask_select ((λ p, bool_decide (is_filled p)) <$> ps) (f <$> ps)
  = f <$> filled ps.
Proof.
  unfold filled. induction ps as [|p ps IH]; [done|].
  rewrite !fmap_cons. cbn [mask_select]. case_bool_decide.
  - rewrite filter_cons_True by done. by rewrite fmap_cons, IH.
  - by rewrite filter_cons_False by done.
Qed.

Lemma length_mask_select {A B} (m : list bool) (l : list A) (k : list B) :
  length l = length k →
  length (mask_select m l) = length (mask_select m k).
Proof.
  revert l k. induction m as [|b m IH]; intros [|x l] [|y k] Hlen;
    try done.
  cbn in *. destruct b; cbn; auto.
Qed.

Lemma series_sum_weighted (g : period → option Qc) (h : period → Qc)
    (l : list period) :
  series_sum (series_mul ((λ p, cell (g p)) <$> l) ((λ p, Fin (h p)) <$> l))
  = Fin (Qc_sum ((λ p, from_option (λ x, x * h p) 0 (g p)) <$> l)).
Proof.
  unfold series_sum, series_mul. induction l as [|p l IH]; [done|].
  rewrite !fmap_cons. cbn [zip_with].
  change (Qc_sum (?x :: ?r)) with (x + Qc_sum r).
  destruct (g p) as [x|]; cbn [cell fmul from_option].
  - rewrite filter_cons_True by done. cbn [foldr]. by rewrite IH.
  - rewrite filter_cons_False by (by intros ?). rewrite IH. f_equal. ring.
Qed.

Lemma series_sum_products (g h : period → Qc) (l : list period) :
  series_sum (series_mul ((λ p, Fin (g p)) <$> l) ((λ p, Fin (h p)) <$> l))
  = Fin (Qc_sum ((λ p, g p * h p) <$> l)).
Proof. apply (series_sum_weighted (λ p, Some (g p)) h l). Qed.

Lemma series_sum_field (f : period → Qc) (l : list period) :
  series_sum ((λ p, Fin (f p)) <$> l) = Fin (Qc_sum (f <$> l)).
Proof. by rewrite <- series_sum_Fin, <- list_fmap_compose. Qed.

Lemma Qc_sum_pos (l : list Qc) :
  l ≠ [] → Forall (λ x, 0 < x) l → 0 < Qc_sum l.
Proof.
  induction l as [|x l IH]; [done|]. intros _ [Hx Hl]%Forall_cons_1.
  change (Qc_sum (x :: l)) with (x + Qc_sum l).
  destruct l as [|y l]; [unfold Qc_sum; cbn; by rewrite Qcplus_0_r|].
  apply Qcplus_pos_pos; [done|]. by apply IH.
Qed.

Lemma Qc_sum_nonneg (l : list Qc) :
  Forall (λ x, 0 ≤ x) l → 0 ≤ Qc_sum l.
Proof.
  induction l as [|x l IH]; [done|]. intros [Hx Hl]%Forall_cons_1.
  change (Qc_sum (x :: l)) with (x + Qc_sum l).
  apply Qcplus_nonneg_nonneg; auto.
Qed.

Lemma total_executed_pos ps : filled ps ≠ [] → 0 < total_executed ps.
Proof.
  intros Hne. unfold total_executed. apply Qc_sum_pos.
  - by destruct (filled ps).
  - apply list.Forall_forall. intros x (p & -> & Hp)%list_elem_of_fmap.
    unfold filled in Hp. apply list_elem_of_filter in Hp as [[Hq _] _]. done.
Qed.

Lemma fdiv_Fin (a b : Qc) : b ≠ 0 → fdiv (Fin a) (Fin b) = Fin (a / b).
Proof. intros Hb. unfold fdiv. by rewrite decide_False. Qed.

Lemma fsub_Fin (a b : Qc) : fsub (Fin a) (Fin b) = Fin (a - b).
Proof. done. Qed.

Lemma benchmark_price_records md ps benchmark_type :
  records md ps →
  benchmark_price md benchmark_type
  = Return (if decide (upper benchmark_type = "VWAP")
            then fdiv (Fin (price_volume_total ps)) (Fin (volume_total ps))
            else fdiv (Fin (price_total ps))
                      (Fin (Qc_of_Z (Z.of_nat (length ps))))).
Proof.
  intros (_ & Hp & Hv & _). unfold benchmark_price, getitem.
  rewrite Hp, Hv. case_decide; cbn [mbind res_bind mret res_ret].
  - by rewrite series_sum_products, series_sum_field.
  - unfold series_mean, of_Z.
    rewrite (list_fmap_compose price Fin), series_sum_Fin, series_count_Fin.
    by rewrite length_fmap.
Qed.

Lemma executed_rows_records md ps :
  records md ps →
  executed_rows md
  = Return (select_rows ((λ p, bool_decide (is_filled p)) <$> ps) md).
Proof.
  intros (_ & _ & _ & _ & Heq & Hep & _).
  by rewrite (executed_rows_eq md _ _ Hep Heq), filled_mask_records.
Qed.

Lemma empty_rows_records md ps :
  records md ps →
  empty_frame (select_rows ((λ p, bool_decide (is_filled p)) <$> ps) md)
  = bool_decide (filled ps = []).
Proof.
  intros (Hlen & Hp & _).
  rewrite (empty_select_rows _ _ _ _ Hp).
  apply bool_decide_ext.
  rewrite <- !length_zero_iff_nil.
  rewrite (length_mask_select _ (index md) (id <$> ps))
    by (by rewrite length_fmap).
  by rewrite mask_select_filled, length_fmap.
Qed.

(** What [calculate_metrics] returns on a frame of records with a filled
    period, for the benchmark price [b]. *)
Lemma calculate_metrics_filled self ps benchmark_type :
  records (market_data self) ps →
  filled ps ≠ [] →
  calculate_metrics self benchmark_type
  = b ← benchmark_price (market_data self) benchmark_type;
    Return (mkMetrics
      (Some (fsub (Fin (avg_exec_price ps)) b))
      (Some (Fin (avg_exec_price ps - avg_expected_price ps)))
      (if decide (0 < total_ordered ps)
       then Fin (total_executed ps / total_ordered ps) else Fin 0)).
Proof.
  intros Hrec Hne. pose proof Hrec as (Hlen & Hp & Hv & Hoq & Heq & Hep & Hxp).
  pose proof (total_executed_pos ps Hne) as Hpos.
  assert (total_executed ps ≠ 0) as Hnz.
  { intros Hz. rewrite Hz in Hpos. by apply Qclt_not_eq in Hpos. }
  unfold calculate_metrics.
  rewrite (executed_rows_records _ ps Hrec). cbn [mbind res_bind].
  rewrite (empty_rows_records _ ps Hrec), bool_decide_eq_false_2 by done.
  rewrite !(select_rows_column _ _ _ _ Heq), (select_rows_column _ _ _ _ Hep),
    (select_rows_column _ _ _ _ Hxp).
  cbn [mbind res_bind]. unfold getitem at 1. rewrite Hoq. cbn [mbind res_bind].
  rewrite (benchmark_price_records _ ps) by done. cbn [mbind res_bind mret res_ret].
  rewrite !mask_select_filled.
  rewrite !series_sum_weighted, !series_sum_field.
  fold (total_executed ps). fold (total_ordered ps).
  fold (weighted_sum executed_price (filled ps)).
  fold (weighted_sum expected_price (filled ps)).
  rewrite (fdiv_Fin (weighted_sum executed_price _) _ Hnz).
  rewrite (fdiv_Fin (weighted_sum expected_price _) _ Hnz).
  fold (avg_exec_price ps). fold (avg_expected_price ps).
  rewrite fsub_Fin. unfold mret, res_ret. do 2 f_equal.
  unfold fgt, flt. case_bool_decide as Hto.
  - rewrite decide_True by done. apply fdiv_Fin.
    intros Hz. rewrite Hz in Hto. by apply Qclt_not_eq in Hto.
  - by rewrite decide_False by done.
Qed.

(** ** C3: the metrics when some period filled *)



(** ** C5: the benchmark price *)

Lemma series_mul_Fin (pr vo : list Qc) :
  series_mul (Fin <$> pr) (Fin <$> vo) = Fin <$> zip_with Qcmult pr vo.
Proof.
  unfold series_mul. revert vo.
  induction pr as [|a pr IH]; intros [|b vo]; cbn; by rewrite ?IH.
Qed.

Lemma benchmark_price_lists md (pr vo : list Qc) benchmark_type :
  columns md !! "price" = Some (Fin <$> pr) →
  columns md !! "volume" = Some (Fin <$> vo) →
  benchmark_price md benchmark_type
  = Return (if decide (upper benchmark_type = "VWAP")
            then fdiv (Fin (Qc_sum (zip_with Qcmult pr vo))) (Fin (Qc_sum vo))
            else fdiv (Fin (Qc_sum pr)) (Fin (Qc_of_Z (Z.of_nat (length pr))))).
Proof.
  intros Hp Hv. unfold benchmark_price, getitem.
  rewrite Hp, Hv. case_decide; cbn [mbind res_bind mret res_ret].
  - by rewrite series_mul_Fin, !series_sum_Fin.
  - unfold series_mean, of_Z. by rewrite series_sum_Fin, series_count_Fin.
Qed.

Lemma upper_ascii_letter (u l c : ascii) :
  (65 ≤ N_of_ascii u ≤ 90)%N →
  N_of_ascii l = (N_of_ascii u + 32)%N →
  upper_ascii c = u ↔ either_case u l c.
Proof.
  intros Hu Hl. unfold either_case, upper_ascii.
  destruct (_ && _) eqn:Hc.
  - apply andb_true_iff in Hc as [H1%N.leb_le H2%N.leb_le]. split.
    + intros <-. right. rewrite <- (ascii_N_embedding c), <- (ascii_N_embedding l).
      f_equal. rewrite Hl, N_ascii_embedding by lia. lia.
    + intros [->| ->]; [lia|].
      rewrite Hl. replace (N_of_ascii u + 32 - 32)%N with (N_of_ascii u) by lia.
      apply ascii_N_embedding.
  - split; [by left|]. intros [->| ->]; [done|].
    apply andb_false_iff in Hc as [H%N.leb_gt|H%N.leb_gt]; lia.
Qed.

Lemma upper_is_VWAP (s : string) :
  upper s = "VWAP" ↔
  ∃ c1 c2 c3 c4,
    s = String c1 (String c2 (String c3 (String c4 EmptyString)))
    ∧ either_case "V" "v" c1 ∧ either_case "W" "w" c2
    ∧ either_case "A" "a" c3 ∧ either_case "P" "p" c4.
Proof.
  split.
  - destruct s as [|c1 [|c2 [|c3 [|c4 [|c5 s]]]]]; try done.
    cbn. intros [= H1 H2 H3 H4]. exists c1, c2, c3, c4.
    split; [done|].
    rewrite <- !upper_ascii_letter by (cbn; lia). done.
  - intros (c1 & c2 & c3 & c4 & -> & H1 & H2 & H3 & H4). cbn.
    apply upper_ascii_letter in H1, H2, H3, H4; try (cbn; lia).
    by rewrite H1, H2, H3, H4.
Qed.

Lemma wrap64_id (z : Z) : (- 2 ^ 63 ≤ z < 2 ^ 63)%Z → wrap64 z = z.
Proof. intros Hz. unfold wrap64. rewrite Z.mod_small; lia. Qed.

Lemma int64_sum_loop (zs : list Z) : ∀ acc : Z,
  (0 ≤ acc)%Z → Forall (λ z, 0 ≤ z)%Z zs → (acc + Z_sum zs < 2 ^ 63)%Z →
  foldl (λ acc z, wrap64 (acc + z)) acc zs = (acc + Z_sum zs)%Z.
Proof.
  induction zs as [|z zs IH]; intros acc Hacc Hnn Hlt.
  - cbn. lia.
  - change (Z_sum (z :: zs)) with (z + Z_sum zs)%Z in *. cbn [foldl].
    apply Forall_cons_1 in Hnn as [Hz Hnn].
    assert (0 ≤ Z_sum zs)%Z as Hs.
    { clear -Hnn. induction Hnn as [|y l Hy _ IHl]; [done|].
      change (Z_sum (y :: l)) with (y + Z_sum l)%Z. lia. }
    rewrite wrap64_id by lia. rewrite IH by (done || lia). lia.
Qed.

(** Non-negative integers whose total is below 2^63 are summed without
    wrap-around. *)
Lemma int64_sum_no_wrap (zs : list Z) :
  Forall (λ z, 0 ≤ z)%Z zs → (Z_sum zs < 2 ^ 63)%Z → int64_sum zs = Z_sum zs.
Proof.
  intros Hnn Hlt. unfold int64_sum. by rewrite int64_sum_loop by (done || lia).
Qed.

Lemma Qc_sum_of_Z (zs : list Z) : Qc_sum (Qc_of_Z <$> zs) = Qc_of_Z (Z_sum zs).
Proof.
  induction zs as [|z zs IH]; [symmetry; apply Z2Qc_inj_0|].
  rewrite fmap_cons. change (Qc_sum (?y :: ?k)) with (y + Qc_sum k).
  rewrite IH. change (Z_sum (z :: zs)) with (z + Z_sum zs)%Z.
  by rewrite Z2Qc_inj_add.
Qed.

(** Beyond that the int64 sum differs from the sum of the values: two
    volumes of 2^62 total -2^63. *)
Example int64_sum_wraps :
  int64_sum [2 ^ 62; 2 ^ 62]%Z = (- 2 ^ 63)%Z
  ∧ series_sum [of_Z (2 ^ 62); of_Z (2 ^ 62)] = of_Z (2 ^ 63).
Proof. split; [done|]. apply (bool_decide_unpack _). vm_compute. exact I. Qed.

(** C5, as the code behaves.  The benchmark is selected by
    [benchmark_type.upper() == 'VWAP']: for "VWAP" written in any mix of
    upper and lower case the benchmark price is
    [sum(price_i * volume_i) / sum(volume_i)] over the whole series, and for
    every other string it is the arithmetic mean of the prices of the whole
    series, which needs no volume column.  The volume-weighted case is
    stated for volumes that are not negative, with a positive total below
    2^63: [volume.sum()] of an int64 column, the kind [data_generator.py]
    produces, is an int64 sum and wraps around from 2^63 on, which
    [series_sum] does not do. *)
Theorem C5_benchmark_price (md : DataFrame) (benchmark_type : string)
    (pr vo : list Qc) :
  columns md !! "price" = Some (Fin <$> pr) →
  pr ≠ [] →
  (upper benchmark_type = "VWAP" →
   columns md !! "volume" = Some (Fin <$> vo)
   ∧ Forall (λ v, 0 ≤ v) vo
   ∧ 0 < Qc_sum vo ∧ Qc_sum vo < Qc_of_Z (2 ^ 63)) →
  benchmark_price md benchmark_type
  = Return (Fin (if decide (upper benchmark_type = "VWAP")
                 then Qc_sum (zip_with Qcmult pr vo) / Qc_sum vo
                 else Qc_sum pr / Qc_of_Z (Z.of_nat (length pr))))
  ∧ (upper benchmark_type = "VWAP" ↔
     ∃ c1 c2 c3 c4,
       benchmark_type = String c1 (String c2 (String c3 (String c4 EmptyString)))
       ∧ either_case "V" "v" c1 ∧ either_case "W" "w" c2
       ∧ either_case "A" "a" c3 ∧ either_case "P" "p" c4)
  ∧ (upper benchmark_type = "VWAP" →
     ∀ zs : list Z, vo = Qc_of_Z <$> zs →
       series_sum (Fin <$> vo) = of_Z (int64_sum zs)).
Proof.
  intros Hp Hne Hvwap. split; [|split; [apply upper_is_VWAP|]].
  2:{ intros Hu zs ->. destruct (Hvwap Hu) as (_ & Hnn & _ & Hlt).
      rewrite series_sum_Fin, Qc_sum_of_Z in *. unfold of_Z. do 2 f_equal.
      symmetry. apply int64_sum_no_wrap.
      - apply list.Forall_forall. intros z Hz.
        apply (proj2 (Z2Qc_inj_le 0 z)). rewrite Z2Qc_inj_0.
        apply (proj1 (list.Forall_forall _ _) Hnn).
        apply list_elem_of_fmap. by exists z.
      - by apply (proj2 (Z2Qc_inj_lt _ _)). }
  destruct (decide (upper benchmark_type = "VWAP")) as [Hu|Hu].
  - destruct (Hvwap Hu) as (Hv & _ & Hpos & _).
    rewrite (benchmark_price_lists md pr vo) by done.
    rewrite decide_True by done. f_equal. apply fdiv_Fin.
    intros Hz. rewrite Hz in Hpos. by apply Qclt_not_eq in Hpos.
  - unfold benchmark_price, getitem. rewrite decide_False, Hp by done.
    cbn [mbind res_bind mret res_ret]. f_equal.
    unfold series_mean, of_Z. rewrite series_sum_Fin, series_count_Fin.
    apply fdiv_Fin. rewrite <- Z2Qc_inj_0. intros ?%Z2Qc_inj.
    destruct pr; [done | cbn in *; lia].
Qed.

Lemma C5_benchmark_price_witness :
  benchmark_price skewed_market "Vwap"
  = Return (Fin (if decide (upper "Vwap" = "VWAP")
                 then Qc_sum (zip_with Qcmult
                                [Qc_of_Z 10; Qc_of_Z 20; Qc_of_Z 30]
                                [Qc_of_Z 1; Qc_of_Z 5; Qc_of_Z 5])
                      / Qc_sum [Qc_of_Z 1; Qc_of_Z 5; Qc_of_Z 5]
                 else Qc_sum [Qc_of_Z 10; Qc_of_Z 20; Qc_of_Z 30]
                      / Qc_of_Z (Z.of_nat
                          (length [Qc_of_Z 10; Qc_of_Z 20; Qc_of_Z 30]))))
  ∧ (upper "Vwap" = "VWAP" ↔
     ∃ c1 c2 c3 c4,
       "Vwap" = String c1 (String c2 (String c3 (String c4 EmptyString)))
       ∧ either_case "V" "v" c1 ∧ either_case "W" "w" c2
       ∧ either_case "A" "a" c3 ∧ either_case "P" "p" c4)
  ∧ (upper "Vwap" = "VWAP" →
     ∀ zs : list Z, [Qc_of_Z 1; Qc_of_Z 5; Qc_of_Z 5] = Qc_of_Z <$> zs →
       series_sum (Fin <$> [Qc_of_Z 1; Qc_of_Z 5; Qc_of_Z 5])
       = of_Z (int64_sum zs)).
Proof.
  apply (C5_benchmark_price skewed_market "Vwap"
           [Qc_of_Z 10; Qc_of_Z 20; Qc_of_Z 30]
           [Qc_of_Z 1; Qc_of_Z 5; Qc_of_Z 5]).
  - reflexivity.
  - apply (bool_decide_unpack _). vm_compute. exact I.
  - apply (bool_decide_unpack _). vm_compute. exact I.
Defined.

(** The mean branch on a series without a volume column. *)
Example mean_benchmark_needs_no_volume :
  benchmark_price (mkDF [0; 1; 2]%Z (<["price" := [qz 10; qz 20; qz 30]]> ∅))
                  "avg_price"
  = Return (qz 20).
Proof. apply (bool_decide_unpack _). vm_compute. exact I. Qed.

(** C5 as stated fails on its second half: "vwap" is a string other than
    "VWAP", yet the benchmark it selects is the volume-weighted price 260/11,
    not the mean price 20. *)
Lemma C5_lowercase_selects_vwap :
  "vwap" ≠ "VWAP"
  ∧ benchmark_price skewed_market "vwap"
    = Return (Fin (Qc_of_Z 260 / Qc_of_Z 11))
  ∧ series_mean [qz 10; qz 20; qz 30] = Fin (Qc_of_Z 20)
  ∧ benchmark_price skewed_market "vwap"
    ≠ Return (series_mean [qz 10; qz 20; qz 30]).
Proof.
  split; [done|].
  split; [apply (bool_decide_unpack _); vm_compute; exact I|].
  split; [apply (bool_decide_unpack _); vm_compute; exact I|].
  apply (bool_decide_unpack _). vm_compute. exact I.
Qed.

(** ** Series without volume

    Volumes are not negative, so a series has total volume 0 only when
    every volume is 0.  Then nothing can fill, whatever the schedule, and
    [calculate_metrics] returns the empty-fill result before it computes a
    benchmark: with the VWAP benchmark the division by the total volume is
    never reached from a series of total volume 0. *)

Lemma columns_fill_quantity md idx s q p v i eqs :
  exec_ready md →
  get_loc idx (index md) = Some i →
  columns md !! "executed_quantity" = Some eqs →
  columns (fill_period md idx s q p v) !! "executed_quantity"
  = Some (<[i := py_min q v]> eqs).
Proof.
  intros Hr Hi Heq. unfold fill_period.
  assert (idx ∈ index md) as Hin
    by (eapply list_elem_of_lookup_2, get_loc_Some, Hi).
  destruct (fill_steps md idx s p Hr Hin) as (H1 & E1 & H2 & E2).
  erewrite at_set_present; [apply lookup_insert_eq | by rewrite E2 |].
  rewrite columns_at_set_present_ne; [| apply H1 | by rewrite E1 | exec_col | done].
  rewrite columns_at_set_present_ne; [done | apply Hr | done | exec_col | done].
Qed.

Lemma at_get_zero_volume md idx v :
  no_volume md → at_get md idx "volume" = Return v → v = Fin 0.
Proof.
  intros ([[_ Hlen] _] & (vs & Hvs & Hzero) & _). unfold at_get. rewrite Hvs.
  destruct (get_loc idx (index md)) as [i|] eqn:Hi; [|done].
  intros [= <-]. destruct (lookup_lt_is_Some_2 vs i) as [v Hv].
  { rewrite (Hlen _ _ Hvs). by eapply get_loc_lt. }
  rewrite Hv. cbn.
  apply (proj1 (list.Forall_forall _ _) Hzero). by eapply list_elem_of_lookup_2.
Qed.

Lemma py_min_zero q : fgt q (Fin 0) = true → py_min q (Fin 0) = Fin 0.
Proof. unfold py_min, fgt. by intros ->. Qed.

Lemma no_volume_row s r md o md' :
  no_volume md → run_row s r md = (o, md') → no_volume md'.
Proof.
  intros Hnv Hrun. pose proof Hnv as (Hr & (vs & Hvs & Hzero) & (eqs & Heq & Hq0)).
  destruct r as [idx row].
  destruct (row !! "order_quantity") as [q|] eqn:Hq.
  - destruct (fgt q (Fin 0)) eqn:Hpos.
    + destruct (get_loc idx (index md)) as [i|] eqn:Hi.
      * assert (idx ∈ index md) as Hin
          by (eapply list_elem_of_lookup_2, get_loc_Some, Hi).
        destruct (at_get_total md idx "price") as (? & ? & p & _ & _ & _ & Hp);
          [apply Hr | done | exec_col |].
        destruct (at_get_total md idx "volume") as (? & ? & v & _ & _ & _ & Hv);
          [apply Hr | done | exec_col |].
        assert (v = Fin 0) as -> by (by eapply at_get_zero_volume).
        rewrite (run_row_fill s idx row q p (Fin 0)) in Hrun by done.
        injection Hrun as <- <-.
        destruct (exec_ready_fill md idx s q p (Fin 0) Hr Hin) as [Hr' _].
        split; [done|]. split.
        -- exists vs. split; [|done].
           rewrite (proj2 (columns_fill md idx s q p (Fin 0) "volume" Hr Hin));
             [done | closed_dec].
        -- eexists. split; [by eapply columns_fill_quantity|].
           rewrite py_min_zero by done. by apply Forall_insert.
      * apply get_loc_None in Hi.
        rewrite (run_row_missing s idx row q) in Hrun; [| exec_col | done..].
        by injection Hrun as <- <-.
    + rewrite (run_row_skip s idx row q) in Hrun by done.
      by injection Hrun as <- <-.
  - unfold run_row, lift_res, row_get, mbind, M_bind in Hrun.
    rewrite Hq in Hrun. by injection Hrun as <- <-.
Qed.

Lemma no_volume_loop s (l : list (Z * gmap string num)) : ∀ md o md',
  no_volume md → for_each l (run_row s) md = (o, md') → no_volume md'.
Proof.
  induction l as [|r l IH]; intros md o md' Hnv Hrun.
  - by injection Hrun as <- <-.
  - cbn [for_each] in Hrun. unfold mbind, M_bind in Hrun.
    destruct (run_row s r md) as [[e|[]] md1] eqn:Hrow.
    + injection Hrun as <- <-. by eapply no_volume_row.
    + eapply IH; [|done]. by eapply no_volume_row.
Qed.

Lemma zero_volume_never_fills (market orders : DataFrame) (s : num)
    (benchmark_type : string) (vs : list num) :
  wf_frame market →
  is_Some (columns market !! "price") →
  columns market !! "volume" = Some vs →
  Forall (λ v, v = Fin 0) vs →
  calculate_metrics (run (Backtester_init market s) orders).2 benchmark_type
  = Return (mkMetrics None None (Fin 0)).
Proof.
  intros Hwf Hprice Hvs Hzero.
  assert (no_volume (market_data (Backtester_init market s))) as Hnv.
  { split; [by apply init_exec_ready|]. split.
    - exists vs. by rewrite init_columns, decide_False by closed_dec.
    - eexists. rewrite init_columns, decide_True by closed_dec.
      split; [done|]. rewrite decide_True by done.
      apply list.Forall_forall. by intros q ->%elem_of_replicate_inv. }
  assert (no_volume (market_data (run (Backtester_init market s) orders).2))
    as (Hr & _ & (eqs & Heq & Hq0)).
  { unfold run. destruct (for_each _ _ _) as [[e|[]] md'] eqn:Hrun;
      by apply (no_volume_loop _ _ _ _ _ Hnv Hrun). }
  destruct (exec_ready_col _ "executed_price" Hr) as [eps Hep]; [closed_dec|].
  unfold calculate_metrics.
  rewrite (executed_rows_eq _ eps eqs) by done. cbn [mbind res_bind].
  rewrite (empty_select_rows _ _ _ _ Hep), mask_select_all_false; [done|].
  apply list.Forall_forall. intros b Hb.
  apply list_elem_of_lookup in Hb as [i Hi].
  rewrite filled_mask_lookup in Hi.
  destruct (eps !! i) as [e|] eqn:He; [|done].
  destruct (eqs !! i) as [q|] eqn:Hq; [|done].
  change (Some (notna e && fgt q (Fin 0)) = Some b) in Hi.
  rewrite (proj1 (list.Forall_forall _ _) Hq0 q) in Hi
    by (by eapply list_elem_of_lookup_2).
  rewrite andb_false_r in Hi. congruence.
Qed.

Lemma Qc_sum_zero (l : list Qc) :
  Forall (λ x, 0 ≤ x) l → Qc_sum l = 0 → Forall (λ x, x = 0) l.
Proof.
  induction l as [|x l IH]; intros Hnn Hsum; [constructor|].
  apply Forall_cons_1 in Hnn as [Hx Hnn].
  change (Qc_sum (x :: l)) with (x + Qc_sum l) in Hsum.
  pose proof (Qc_sum_nonneg l Hnn) as Hl.
  assert (x = 0) as ->.
  { apply Qcle_antisym; [|done]. rewrite <- Hsum.
    rewrite <- (Qcplus_0_r x) at 1. by apply Qcplus_le_compat; [apply Qcle_refl|]. }
  constructor; [done|]. apply IH; [done|]. by rewrite Qcplus_0_l in Hsum.
Qed.

(** On a market series with volumes that are not negative and total 0, the
    metrics after any run are the empty-fill result, for every benchmark
    type and schedule. *)
Lemma zero_total_volume_never_fills (market orders : DataFrame) (s : num)
    (benchmark_type : string) (vo : list Qc) :
  wf_frame market →
  is_Some (columns market !! "price") →
  columns market !! "volume" = Some (Fin <$> vo) →
  Forall (λ v, 0 ≤ v) vo →
  Qc_sum vo = 0 →
  calculate_metrics (run (Backtester_init market s) orders).2 benchmark_type
  = Return (mkMetrics None None (Fin 0)).
Proof.
  intros Hwf Hprice Hvs Hnn Hsum.
  apply (zero_volume_never_fills market orders s benchmark_type (Fin <$> vo));
    [done..|].
  apply Forall_fmap. apply (list.Forall_impl _ _ _ (Qc_sum_zero vo Hnn Hsum)).
  by intros x ->.
Qed.

(** ** C10: where the fill-rate denominator comes from *)

Lemma run_row_frame s r md o md' :
  exec_ready md →
  run_row s r md = (o, md') →
  exec_ready md' ∧ index md' = index md
  ∧ ∀ c, c ∉ exec_columns → columns md' !! c = columns md !! c.
Proof.
  intros Hr Hrun. destruct r as [idx row].
  destruct (row !! "order_quantity") as [q|] eqn:Hq.
  - destruct (fgt q (Fin 0)) eqn:Hpos.
    + destruct (decide (idx ∈ index md)) as [Hin|Hin].
      * destruct (at_get_total md idx "price") as (? & ? & p & _ & _ & _ & Hp);
          [apply Hr | done | exec_col |].
        destruct (at_get_total md idx "volume") as (? & ? & v & _ & _ & _ & Hv);
          [apply Hr | done | exec_col |].
        rewrite (run_row_fill s idx row q p v) in Hrun by done.
        injection Hrun as <- <-.
        destruct (exec_ready_fill md idx s q p v Hr Hin) as [? ?].
        split; [done|]. split; [done|]. intros c Hc. by apply columns_fill.
      * rewrite (run_row_missing s idx row q) in Hrun; [| exec_col | done..].
        by injection Hrun as <- <-.
    + rewrite (run_row_skip s idx row q) in Hrun by done.
      by injection Hrun as <- <-.
  - unfold run_row, lift_res, row_get, mbind, M_bind in Hrun.
    rewrite Hq in Hrun. by injection Hrun as <- <-.
Qed.

Lemma run_loop_frame s (l : list (Z * gmap string num)) : ∀ md o md',
  exec_ready md →
  for_each l (run_row s) md = (o, md') →
  exec_ready md' ∧ index md' = index md
  ∧ ∀ c, c ∉ exec_columns → columns md' !! c = columns md !! c.
Proof.
  induction l as [|r l IH]; intros md o md' Hr Hrun.
  - injection Hrun as <- <-. done.
  - cbn [for_each] in Hrun. unfold mbind, M_bind in Hrun.
    destruct (run_row s r md) as [[e|[]] md1] eqn:Hrow.
    + injection Hrun as <- <-. by eapply run_row_frame.
    + destruct (run_row_frame s r md _ md1 Hr Hrow) as (Hr1 & E1 & Hc1).
      destruct (IH md1 o md' Hr1 Hrun) as (Hr' & E' & Hc').
      split; [done|]. split; [congruence|].
      intros c Hc. by rewrite Hc', Hc1.
Qed.

Lemma run_frame self orders :
  exec_ready (market_data self) →
  let self' := (run self orders).2 in
  exec_ready (market_data self')
  ∧ index (market_data self') = index (market_data self)
  ∧ ∀ c, c ∉ exec_columns →
      columns (market_data self') !! c = columns (market_data self) !! c.
Proof.
  intros Hr. unfold run.
  destruct (for_each _ _ _) as [[e|[]] md'] eqn:Hrun;
    by apply (run_loop_frame _ _ _ _ _ Hr Hrun).
Qed.

(** C10.  After [run], whatever schedule was passed to it, the
    [order_quantity] column of the working frame is the one of the frame the
    backtester was built from.  So when that frame had no such column and
    some period filled, [calculate_metrics] raises the [KeyError] of
    ['order_quantity']. *)
Theorem C10_order_quantity_source (market orders : DataFrame) (s : num)
    (benchmark_type : string) :
  wf_frame market →
  is_Some (columns market !! "price") →
  is_Some (columns market !! "volume") →
  let self' := (run (Backtester_init market s) orders).2 in
  columns (market_data self') !! "order_quantity"
  = columns market !! "order_quantity"
  ∧ (columns market !! "order_quantity" = None →
     ∀ eps eqs,
       columns (market_data self') !! "executed_price" = Some eps →
       columns (market_data self') !! "executed_quantity" = Some eqs →
       (∃ i e q, eps !! i = Some e ∧ eqs !! i = Some q
                 ∧ isnan e = false ∧ fgt q (Fin 0) = true) →
       calculate_metrics self' benchmark_type
       = Raise (KeyError (Col "order_quantity"))).
Proof.
  intros Hwf Hprice Hvol self'.
  pose proof (init_exec_ready market s Hwf Hprice Hvol) as Hr.
  destruct (run_frame (Backtester_init market s) orders Hr) as (Hr' & E' & Hc').
  fold self' in Hr', E', Hc'.
  assert (columns (market_data self') !! "order_quantity"
          = columns market !! "order_quantity") as Hoq.
  { rewrite Hc' by closed_dec. rewrite init_columns.
    by rewrite decide_False by closed_dec. }
  split; [done|].
  intros Hnone eps eqs Hep Heq (i & e & q & He & Hq & Hnan & Hpos).
  rewrite Hnone in Hoq.
  unfold calculate_metrics.
  rewrite (executed_rows_eq _ eps eqs) by done. cbn [mbind res_bind].
  rewrite (empty_select_rows _ _ _ _ Hep).
  rewrite bool_decide_eq_false_2.
  - rewrite (select_rows_column _ _ _ _ Heq). cbn [mbind res_bind].
    unfold getitem. by rewrite Hoq.
  - apply (mask_select_some_true _ _ i).
    + rewrite filled_mask_lookup, He, Hq. cbn [mbind option_bind].
      unfold notna. by rewrite Hnan, Hpos.
    + destruct Hr' as [[_ Hlen] _]. rewrite <- (Hlen _ _ Hep).
      by eapply lookup_lt_Some.
Qed.

Lemma C10_order_quantity_source_witness :
  let self' := (run (Backtester_init scenario_market tenth)
                    (schedule_frame [qz 3; qz 3; qz 3])).2 in
  columns (market_data self') !! "order_quantity"
  = columns scenario_market !! "order_quantity"
  ∧ (columns scenario_market !! "order_quantity" = None →
     ∀ eps eqs,
       columns (market_data self') !! "executed_price" = Some eps →
       columns (market_data self') !! "executed_quantity" = Some eqs →
       (∃ i e q, eps !! i = Some e ∧ eqs !! i = Some q
                 ∧ isnan e = false ∧ fgt q (Fin 0) = true) →
       calculate_metrics self' "VWAP" = Raise (KeyError (Col "order_quantity"))).
Proof.
  apply (C10_order_quantity_source scenario_market
           (schedule_frame [qz 3; qz 3; qz 3]) tenth "VWAP").
  - apply (bool_decide_unpack _). vm_compute. exact I.
  - apply (bool_decide_unpack _). vm_compute. exact I.
  - apply (bool_decide_unpack _). vm_compute. exact I.
Defined.

Example bare_market_metrics_raise :
  calculate_metrics
    (run (Backtester_init scenario_market tenth)
         (schedule_frame [qz 3; qz 3; qz 3])).2 "VWAP"
  = Raise (KeyError (Col "order_quantity")).
Proof. apply (bool_decide_unpack _). vm_compute. exact I. Qed.

(** ** C9: the caller's frames are never written *)

Lemma same_except_refl r h : same_except r h h.
Proof. by split. Qed.

Lemma same_except_trans r h1 h2 h3 :
  same_except r h1 h2 → same_except r h2 h3 → same_except r h1 h3.
Proof.
  intros [L1 E1] [L2 E2]. split; [congruence|].
  intros l Hl. by rewrite E2, E1.
Qed.

Lemma same_except_alter (f : DataFrame → DataFrame) r h :
  same_except r h (alter f r h).
Proof.
  split; [apply length_alter|]. intros l Hl. by apply list_lookup_alter_ne.
Qed.

(** One pass of the loop of [run] writes to no object but
    [self.market_data]. *)
Lemma run_row_ref_frame self r h :
  same_except (frame_ref self) h (run_row_ref self r h).2.
Proof.
  destruct r as [idx row]. unfold run_row_ref, Sto_lift, df_at_get, df_at_set.
  unfold mbind, Sto_bind, mret, Sto_ret.
  destruct (row_get row "order_quantity") as [e|q]; [apply same_except_refl|].
  destruct (fgt q (Fin 0)); [|apply same_except_refl].
  destruct (at_get (deref h (frame_ref self)) idx "volume") as [e|v];
    [apply same_except_refl|].
  destruct (at_get (deref h (frame_ref self)) idx "price") as [e|p];
    [apply same_except_refl|].
  set (h1 := alter _ (frame_ref self) h).
  assert (same_except (frame_ref self) h h1) as H1
    by apply same_except_alter.
  destruct (at_get (deref h1 (frame_ref self)) idx "price") as [e|p']; [done|].
  eapply same_except_trans; [exact H1|].
  eapply same_except_trans; apply same_except_alter.
Qed.

Lemma run_loop_ref_frame self (rows : list (Z * gmap string num)) : ∀ h,
  same_except (frame_ref self) h (Sto_for_each rows (run_row_ref self) h).2.
Proof.
  induction rows as [|r rows IH]; intros h; [apply same_except_refl|].
  cbn [Sto_for_each]. unfold mbind, Sto_bind.
  pose proof (run_row_ref_frame self r h) as Hrow.
  destruct (run_row_ref self r h) as [[e|[]] h1]; [done|].
  eapply same_except_trans; [exact Hrow | apply IH].
Qed.

(** [run] changes no object but the backtester's working frame, and
    allocates nothing. *)
Lemma run_ref_frame self df_orders h :
  same_except (frame_ref self) h (run_ref self df_orders h).2.
Proof.
  unfold run_ref, df_iterrows. unfold mbind at 1, Sto_bind at 1.
  unfold mbind, Sto_bind, mret, Sto_ret.
  pose proof (run_loop_ref_frame self (iterrows (deref h df_orders)) h) as Hloop.
  by destruct (Sto_for_each _ _ h) as [[e|[]] h1].
Qed.

Lemma alter_fresh (f : DataFrame → DataFrame) (h : store) (df : DataFrame) :
  alter f (length h) (h ++ [df]) = h ++ [f df].
Proof. by rewrite alter_app_r_alt, Nat.sub_diag by lia. Qed.

(** The constructor allocates one object, the copy with the execution
    columns, and leaves every existing object alone; what it builds is the
    frame of [Backtester_init]. *)
Lemma Backtester_init_ref_eq (src : ref) (s : num) (h : store) :
  Backtester_init_ref src s h
  = (Return (mkRef (length h) s),
     h ++ [market_data (Backtester_init (deref h src) s)]).
Proof.
  unfold Backtester_init_ref, df_copy, df_setitem.
  unfold mbind, Sto_bind, mret, Sto_ret. by rewrite !alter_fresh.
Qed.

(** On an object that exists, the statements of [run] on references are
    those of [run] on the frame the reference points to. *)
Lemma deref_insert (h : list DataFrame) (r : nat) (x : DataFrame) :
  (r < length h)%nat → deref (<[r := x]> h) r = x.
Proof. intros Hr. unfold deref. by rewrite list_lookup_insert_eq. Qed.

Lemma insert_deref (h : list DataFrame) (r : nat) :
  (r < length h)%nat → <[r := deref h r]> h = h.
Proof.
  intros Hr. apply list_insert_id. unfold deref.
  by destruct (lookup_lt_is_Some_2 h r Hr) as [x ->].
Qed.

Lemma alter_deref (f : DataFrame → DataFrame) (h : list DataFrame) (r : nat) :
  (r < length h)%nat → alter f r h = <[r := f (deref h r)]> h.
Proof.
  intros Hr. apply list_eq. intros l. unfold deref.
  destruct (lookup_lt_is_Some_2 h r Hr) as [x Hx].
  destruct (decide (l = r)) as [->|Hl].
  - by rewrite list_lookup_alter_eq, list_lookup_insert_eq, Hx.
  - by rewrite list_lookup_alter_ne, list_lookup_insert_ne.
Qed.

Lemma alter_insert (f : DataFrame → DataFrame) (h : list DataFrame) (r : nat)
    (x : DataFrame) :
  (r < length h)%nat → alter f r (<[r := x]> h) = <[r := f x]> h.
Proof.
  intros Hr. rewrite alter_deref by (by rewrite length_insert).
  by rewrite deref_insert, list_insert_insert_eq.
Qed.

Lemma run_row_ref_eq self row (h : store) :
  (frame_ref self < length h)%nat →
  run_row_ref self row h
  = ((run_row (slippage_of self) row (deref h (frame_ref self))).1,
     <[frame_ref self :=
         (run_row (slippage_of self) row (deref h (frame_ref self))).2]> h).
Proof.
  intros Hr. destruct row as [idx rw].
  unfold run_row_ref, run_row, Sto_lift, lift_res, df_at_get, df_at_set,
    read_at, write_at.
  unfold mbind, Sto_bind, M_bind, mret, Sto_ret, M_ret.
  destruct (row_get rw "order_quantity") as [e|q]; cbn [fst snd];
    [by rewrite insert_deref|].
  destruct (fgt q (Fin 0)); cbn [fst snd]; [|by rewrite insert_deref].
  destruct (at_get (deref h (frame_ref self)) idx "volume") as [e|v];
    cbn [fst snd]; [by rewrite insert_deref|].
  destruct (at_get (deref h (frame_ref self)) idx "price") as [e|p];
    cbn [fst snd]; [by rewrite insert_deref|].
  rewrite alter_deref, deref_insert by done.
  destruct (at_get _ idx "price") as [e|p']; cbn [fst snd]; [done|].
  by rewrite !alter_insert by done.
Qed.

Lemma run_loop_ref_eq self (rows : list (Z * gmap string num)) : ∀ h : store,
  (frame_ref self < length h)%nat →
  Sto_for_each rows (run_row_ref self) h
  = ((for_each rows (run_row (slippage_of self)) (deref h (frame_ref self))).1,
     <[frame_ref self :=
         (for_each rows (run_row (slippage_of self))
                   (deref h (frame_ref self))).2]> h).
Proof.
  induction rows as [|r rows IH]; intros h Hr.
  - cbn. by rewrite insert_deref.
  - cbn [Sto_for_each for_each]. unfold mbind, Sto_bind, M_bind.
    rewrite run_row_ref_eq by done.
    destruct (run_row _ r _) as [[e|[]] md1]; cbn [fst snd]; [done|].
    rewrite IH by (by rewrite length_insert).
    by rewrite deref_insert, list_insert_insert_eq.
Qed.

(** [run] on references: the outcome and the working frame are those of
    [run], the frame is stored back in the object [self.market_data] refers
    to, and the value returned is that reference. *)
Lemma run_ref_eq self (df_orders : ref) (h : store) :
  (frame_ref self < length h)%nat →
  let out := run (mkBacktester (deref h (frame_ref self)) (slippage_of self))
                 (deref h df_orders) in
  run_ref self df_orders h
  = (_ ← out.1; Return (frame_ref self),
     <[frame_ref self := market_data out.2]> h).
Proof.
  intros Hr out. subst out. unfold run_ref, df_iterrows, run.
  unfold mbind at 1, Sto_bind at 1. cbn [market_data slippage_factor].
  unfold mbind at 1, Sto_bind at 1.
  rewrite run_loop_ref_eq by done.
  by destruct (for_each _ _ _) as [[e|[]] md1].
Qed.

Lemma same_except_fresh (h h' : store) (df : DataFrame) :
  same_except (length h) (h ++ [df]) h' →
  (∀ l df0, h !! l = Some df0 → h' !! l = Some df0)
  ∧ (length h ≤ length h')%nat.
Proof.
  intros [Hlen Heq]. split.
  - intros l df0 Hl. pose proof (lookup_lt_Some _ _ _ Hl) as Hlt.
    rewrite Heq by lia. by apply lookup_app_l_Some.
  - rewrite Hlen, length_app. lia.
Qed.

(** [generate_orders] allocates the copy and writes to nothing else. *)
Lemma generate_orders_ref_frame st (src : ref) (h : store) :
  same_except (length h) (h ++ [deref h src]) (generate_orders_ref st src h).2.
Proof.
  unfold generate_orders_ref, df_copy, df_setitem.
  unfold mbind at 1 2, Sto_bind at 1 2. cbn [fst snd].
  pose proof (same_except_alter
                (λ df, setitem_scalar df "order_quantity" (Fin 0))
                (length h) (h ++ [deref h src])) as H1.
  assert (∀ (l : list Z) h2,
            same_except (length h) h2
              (Sto_for_each l (λ idx, df_at_set (length h) idx "order_quantity"
                                      (qty_per_slice st)) h2).2) as Hloop.
  { induction l as [|idx l IH]; intros h2; [apply same_except_refl|].
    cbn [Sto_for_each]. unfold mbind, Sto_bind, df_at_set at 1.
    eapply same_except_trans; [apply same_except_alter | apply IH]. }
  specialize (Hloop (py_range (start_index st) (end_index st + 1))
                (alter (λ df, setitem_scalar df "order_quantity" (Fin 0))
                       (length h) (h ++ [deref h src]))).
  unfold mbind, Sto_bind, mret, Sto_ret.
  destruct (Sto_for_each _ _ _) as [[e|[]] h2]; cbn [snd] in *;
    exact (same_except_trans _ _ _ _ H1 Hloop).
Qed.

Lemma originals_kept_step h0 c w :
  originals_kept h0 w → originals_kept h0 (step c w).
Proof.
  intros (Hkeep & Hlen & Hobj). destruct c as [st src|src s|b orders|b bt];
    cbn [step]; [| | |done].
  - case_decide as Hsrc; [|done].
    destruct (same_except_fresh _ _ _
                (generate_orders_ref_frame st src (frames w))) as [Hpre Hle].
    split; [|split]; cbn [frames objects]; [| lia | done].
    intros l df Hl. by apply Hpre, Hkeep.
  - case_decide as Hsrc; [|done].
    rewrite Backtester_init_ref_eq.
    split; [|split]; cbn [frames objects]; [| rewrite length_app; lia |].
    + intros l df Hl. by apply lookup_app_l_Some, Hkeep.
    + apply Forall_app. split; [done|]. by apply Forall_singleton.
  - destruct (objects w !! b) as [o|] eqn:Ho; [|done].
    case_decide as Horders; [|done].
    assert (length h0 ≤ frame_ref o)%nat as Hfresh.
    { by apply (proj1 (list.Forall_forall _ _) Hobj), (list_elem_of_lookup_2 _ b). }
    destruct (run_ref_frame o orders (frames w)) as [Hl Heq].
    split; [|split]; cbn [frames objects]; [| lia | done].
    intros l df Hdf. rewrite Heq; [by apply Hkeep|].
    apply lookup_lt_Some in Hdf. lia.
Qed.

Lemma originals_kept_exec h0 calls : ∀ w,
  originals_kept h0 w → originals_kept h0 (exec calls w).
Proof.
  induction calls as [|c calls IH]; intros w Hw; [done|].
  cbn. apply IH. by apply originals_kept_step.
Qed.

(** C9.  Start from any frames [h0] held by the caller and no backtester.
    After any sequence of calls that generate schedules, build backtesters
    on any of the frames (also on frames that earlier calls returned), run
    them on any of the frames and compute metrics, every frame of [h0] is
    exactly what it was: the index and all columns and values are
    unchanged.  The constructor copies its argument (line 21) and [run]
    writes through [self.market_data] only (lines 40-54), so all writes
    land in objects created by the constructors. *)
Theorem C9_original_frames_unchanged (h0 : store) (calls : list call)
    (l : ref) (df : DataFrame) :
  h0 !! l = Some df →
  frames (exec calls (mkWorld h0 [])) !! l = Some df.
Proof.
  intros Hl.
  destruct (originals_kept_exec h0 calls (mkWorld h0 [])) as (Hkeep & _).
  - split; [done|]. split; [done | apply Forall_nil_2].
  - by apply Hkeep.
Qed.

Lemma C9_original_frames_unchanged_witness :
  frames (exec [CallGenerate (mkTWAP (qz 9) 0 2) 0; CallNew 0 tenth;
                CallRun 0 1; CallRun 0 0; CallMetrics 0 "VWAP"]
               (mkWorld [scenario_market] [])) !! 0%nat
  = Some scenario_market.
Proof.
  apply (C9_original_frames_unchanged [scenario_market]
           [CallGenerate (mkTWAP (qz 9) 0 2) 0; CallNew 0 tenth;
            CallRun 0 1; CallRun 0 0; CallMetrics 0 "VWAP"]
           0 scenario_market).
  reflexivity.
Defined.

(** The same calls do write: the working frame, object 2, has the executed
    quantities, and it is the only frame that [run] changed. *)
Example working_frame_written :
  let w := exec [CallGenerate (mkTWAP (qz 9) 0 2) 0; CallNew 0 tenth; CallRun 0 1]
                (mkWorld [scenario_market] []) in
  (w.(frames) !! 2%nat) ≫= (λ md, columns md !! "executed_quantity")
  = Some [qz 3; qz 3; qz 3]
  ∧ w.(frames) !! 1%nat = Some scenario_orders
  ∧ w.(frames) !! 0%nat = Some scenario_market.
Proof.
  cbv zeta. repeat split; apply (bool_decide_unpack _); vm_compute; exact I.
Qed.


(** The copy made by the constructor is what protects the caller: [run] on
    a backtester that referred to the caller's own frame would write to
    it. *)
Example run_writes_through_its_reference :
  (run_ref (mkRef 0 tenth) 0 [scenario_orders]).2 ≠ [scenario_orders]
  ∧ (run_ref (mkRef 1 tenth) 0 [scenario_orders; scenario_orders]).2 !! 0%nat
    = Some scenario_orders.
Proof.
  split; apply (bool_decide_unpack _); vm_compute; exact I.
Qed.

(** * Further properties *)

(** ** data_generator.py: the price walk *)

Lemma price_walk_loop (changes : list num) : ∀ (done_ : list num) (last : num),
  last_price (done_ ++ [last]) = last →
  foldl (λ prices change,
           prices ++ [py_max (Fin 1) (fadd (last_price prices) change)])
        (done_ ++ [last]) changes
  = done_ ++ [last] ++ walk_from last changes.
Proof.
  induction changes as [|c cs IH]; intros done_ last Hlast; [done|].
  cbn [foldl walk_from]. rewrite Hlast.
  rewrite (IH (done_ ++ [last])).
  - by rewrite <- !app_assoc.
  - unfold last_price. apply last_last.
Qed.

Lemma price_walk_eq initial (changes : list num) :
  price_walk initial changes = walk_from initial changes.
Proof.
  unfold price_walk. change [initial] with ([] ++ [initial]).
  by rewrite (price_walk_loop changes [] initial).
Qed.

Lemma py_max_floor (x : num) :
  flt (py_max (Fin 1) x) (Fin 1) = false ∧ isnan (py_max (Fin 1) x) = false.
Proof.
  unfold py_max, fgt. destruct (flt (Fin 1) x) eqn:Hx; [|split; [|done]].
  - destruct x as [b| | |]; try done. split; [|done].
    unfold flt in *. apply bool_decide_eq_true in Hx.
    apply bool_decide_eq_false. intros Hb.
    by eapply Qclt_not_le, Qclt_le_weak, Hx.
  - unfold flt. apply bool_decide_eq_false. by intros ?%Qclt_not_eq.
Qed.

(** X1.  Whatever the starting price and the changes (also NaN or infinite
    ones), the generated price column has one price per change, and every
    price is a number that is not below 1: the floor [max(1.0, next_price)]
    also absorbs a NaN. *)
Theorem X1_prices_floored (initial : num) (changes : list num) :
  length (price_walk initial changes) = length changes
  ∧ Forall (λ p, flt p (Fin 1) = false ∧ isnan p = false)
           (price_walk initial changes).
Proof.
  rewrite price_walk_eq. revert initial.
  induction changes as [|c cs IH]; intros initial; [done|].
  cbn [walk_from length]. destruct (IH (py_max (Fin 1) (fadd initial c))) as [Hlen Hall].
  split; [by rewrite Hlen|]. apply Forall_cons_2; [apply py_max_floor | done].
Qed.

Lemma price_walk_finite (i : Qc) (cs : list Qc) :
  price_walk (Fin i) (Fin <$> cs) = Fin <$> floored_walk i cs.
Proof.
  rewrite price_walk_eq. revert i.
  induction cs as [|c cs IH]; intros i; [done|].
  rewrite fmap_cons. cbn [walk_from floored_walk fadd].
  unfold py_max, fgt, flt.
  case_bool_decide; rewrite fmap_cons.
  - rewrite decide_True by done. by rewrite IH.
  - rewrite decide_False by done. by rewrite IH.
Qed.

(** ** [run] on a schedule that is aligned with the working frame *)

Lemma at_get_position md idx col i s v :
  wf_frame md →
  index md !! i = Some idx →
  columns md !! col = Some s →
  at_get md idx col = Return v →
  s !! i = Some v.
Proof.
  intros [Hnd Hlen] Hi Hs. unfold at_get. rewrite Hs.
  rewrite (get_loc_NoDup idx (index md) i) by done.
  intros [= <-]. destruct (lookup_lt_is_Some_2 s i) as [x Hx].
  { rewrite (Hlen _ _ Hs). by eapply lookup_lt_Some. }
  by rewrite Hx.
Qed.

Lemma column_from_cells md col s (t : list num) :
  wf_frame md →
  columns md !! col = Some s →
  length t = length (index md) →
  (∀ i idx x, index md !! i = Some idx → t !! i = Some x →
              at_get md idx col = Return x) →
  s = t.
Proof.
  intros Hwf Hs Hlen Hcells.
  apply (list_eq_same_length _ _ (length (index md))); [done | |].
  { by apply (proj2 Hwf col s). }
  intros i x y Hi Hx Hy.
  destruct (lookup_lt_is_Some_2 (index md) i) as [idx Hidx]; [done|].
  pose proof (at_get_position md idx col i s y Hwf Hidx Hs
                (Hcells i idx y Hidx Hy)) as Hx'.
  congruence.
Qed.

(** The cells after [run] on any working frame that is ready, for a schedule
    whose labels are unique and all known. *)
Lemma run_cells self orders qs :
  exec_ready (market_data self) →
  NoDup (index orders) →
  (∀ idx, idx ∈ index orders → idx ∈ index (market_data self)) →
  columns orders !! "order_quantity" = Some qs →
  length qs = length (index orders) →
  ∃ md', run self orders = (Return md', mkBacktester md' (slippage_factor self))
    ∧ exec_ready md' ∧ index md' = index (market_data self)
    ∧ (∀ c, c ∉ exec_columns →
         columns md' !! c = columns (market_data self) !! c)
    ∧ (∀ idx, idx ∉ index orders →
         ∀ col, at_get md' idx col = at_get (market_data self) idx col)
    ∧ (∀ i idx q, index orders !! i = Some idx → qs !! i = Some q →
         if fgt q (Fin 0)
         then ∀ p v, at_get (market_data self) idx "price" = Return p →
                     at_get (market_data self) idx "volume" = Return v →
                at_get md' idx "expected_price" = Return p
                ∧ at_get md' idx "executed_price"
                  = Return (fmul p (fadd (Fin 1) (slippage_factor self)))
                ∧ at_get md' idx "executed_quantity" = Return (py_min q v)
         else ∀ col, at_get md' idx col = at_get (market_data self) idx col).
Proof.
  intros Hr Hnd Hknown Hqs Hlen.
  destruct (run_loop_ok (slippage_factor self) (iterrows orders) _ Hr) as
    (md' & Hrun & Hr' & E' & Hcols & Hkeep & Hfill).
  { apply list.Forall_forall. intros r Hrin. split.
    - apply (iterrows_order_quantity orders qs Hqs Hlen r Hrin).
    - unfold unmatched. apply andb_false_iff. right.
      rewrite bool_decide_eq_false. intros Hnot. apply Hnot, Hknown.
      rewrite <- iterrows_labels. apply list_elem_of_fmap. by exists r. }
  exists md'. split; [by apply run_outcome_ok|].
  split; [done|]. split; [done|]. split; [done|]. split.
  - intros idx Hnin col. apply Hkeep. intros r Hrin <-. destruct Hnin.
    rewrite <- iterrows_labels. apply list_elem_of_fmap. by exists r.
  - intros i idx q Hi Hq.
    assert ((idx, row_at orders i) ∈ iterrows orders) as Hrow
      by (apply elem_of_iterrows; by exists i).
    assert (row_at orders i !! "order_quantity" = Some q) as Hrq
      by (by rewrite row_at_lookup, Hqs).
    destruct (fgt q (Fin 0)) eqn:Hpos.
    + intros p v Hp Hv.
      apply Hfill with (row := row_at orders i) (v := v); try done.
      by rewrite iterrows_labels.
    + intros col. apply Hkeep.
      intros [idx' row'] (j & Hj & ->)%elem_of_iterrows [= ->].
      assert (j = i) as -> by (by eapply NoDup_lookup).
      unfold ordered. cbn [snd]. by rewrite Hrq.
Qed.

Lemma at_get_of_position md idx col i s v :
  NoDup (index md) →
  index md !! i = Some idx →
  columns md !! col = Some s →
  s !! i = Some v →
  at_get md idx col = Return v.
Proof.
  intros Hnd Hi Hs Hv.
  eapply at_get_present; [by apply get_loc_NoDup | done..].
Qed.

Lemma execute_period_inputs s r :
  price (execute_period s r) = row_price r
  ∧ volume (execute_period s r) = row_volume r
  ∧ order_quantity (execute_period s r) = row_order r.
Proof. unfold execute_period. by case_decide. Qed.

Lemma fgt_Fin (a b : Qc) : fgt (Fin a) (Fin b) = bool_decide (b < a).
Proof. done. Qed.

(** The three execution cells of one period, after [run] on the frame built
    from [rows]. *)
Lemma run_rows_cells df s rows md' :
  holds_rows df rows →
  (∀ i idx q, index df !! i = Some idx →
     ((λ r, Fin (row_order r)) <$> rows) !! i = Some q →
     if fgt q (Fin 0)
     then ∀ p v,
            at_get (market_data (Backtester_init df (Fin s))) idx "price"
            = Return p →
            at_get (market_data (Backtester_init df (Fin s))) idx "volume"
            = Return v →
            at_get md' idx "expected_price" = Return p
            ∧ at_get md' idx "executed_price"
              = Return (fmul p (fadd (Fin 1) (Fin s)))
            ∧ at_get md' idx "executed_quantity" = Return (py_min q v)
     else ∀ col, at_get md' idx col
                 = at_get (market_data (Backtester_init df (Fin s))) idx col) →
  ∀ i idx r, index df !! i = Some idx → rows !! i = Some r →
    at_get md' idx "expected_price"
    = Return (cell (expected_price (execute_period s r)))
    ∧ at_get md' idx "executed_price"
      = Return (cell (executed_price (execute_period s r)))
    ∧ at_get md' idx "executed_quantity"
      = Return (Fin (executed_quantity (execute_period s r))).
Proof.
  intros ((Hnd & Hwf) & Hlen & Hp & Hv & Hq) Hcells i idx r Hi Hr.
  specialize (Hcells i idx (Fin (row_order r)) Hi).
  rewrite list_lookup_fmap, Hr in Hcells. specialize (Hcells eq_refl).
  assert (idx ∈ index df) as Hin by (by eapply list_elem_of_lookup_2).
  rewrite fgt_Fin in Hcells. unfold execute_period.
  case_bool_decide as Hpos.
  - rewrite decide_True by done. cbn [expected_price executed_price
      executed_quantity cell].
    destruct (Hcells (Fin (row_price r)) (Fin (row_volume r))) as (H1 & H2 & H3).
    + rewrite init_at_get_other by closed_dec.
      eapply at_get_of_position; [done.. |]. by rewrite list_lookup_fmap, Hr.
    + rewrite init_at_get_other by closed_dec.
      eapply at_get_of_position; [done.. |]. by rewrite list_lookup_fmap, Hr.
    + split; [done|]. split; [by rewrite H2|]. by rewrite H3, py_min_Fin.
  - rewrite decide_False by done. cbn [expected_price executed_price
      executed_quantity cell].
    rewrite !Hcells. by rewrite !init_at_get by (done || closed_dec).
Qed.

(** [run] on the frame it was built from, as records. *)
Lemma run_rows_records (df : DataFrame) (s : Qc) (rows : list order_row) :
  holds_rows df rows →
  ∃ md', run (Backtester_init df (Fin s)) df
         = (Return md', mkBacktester md' (Fin s))
    ∧ index md' = index df
    ∧ wf_frame md'
    ∧ records md' (execute_period s <$> rows).
Proof.
  intros Hrows. pose proof Hrows as (Hwf & Hlen & Hp & Hv & Hq).
  assert (exec_ready (market_data (Backtester_init df (Fin s)))) as Hr
    by (apply init_exec_ready; [done | by rewrite Hp | by rewrite Hv]).
  destruct (run_cells (Backtester_init df (Fin s)) df
              ((λ r, Fin (row_order r)) <$> rows) Hr)
    as (md' & Hrun & Hr' & E' & Hcols & _ & Hcells);
    [apply Hwf | done | done | by rewrite length_fmap |].
  rewrite init_index in E'.
  exists md'. split; [done|]. split; [done|]. split; [apply Hr'|].
  pose proof (run_rows_cells df s rows md' Hrows Hcells) as Hexec.
  assert (∀ c, c ∉ exec_columns → columns md' !! c = columns df !! c) as Hsame.
  { intros c Hc. rewrite Hcols by done. by rewrite init_columns, decide_False. }
  assert (∀ (f : period → num) (g : order_row → num),
            (∀ r, f (execute_period s r) = g r) →
            f <$> (execute_period s <$> rows) = g <$> rows) as Hmap.
  { intros f g Hfg. rewrite <- list_fmap_compose.
    apply list_fmap_ext. intros i r _. apply Hfg. }
  assert (∀ c (f : period → num),
            c ∈ exec_columns →
            (∀ i idx r, index df !! i = Some idx → rows !! i = Some r →
                        at_get md' idx c = Return (f (execute_period s r))) →
            columns md' !! c = Some (f <$> (execute_period s <$> rows)))
    as Hcol.
  { intros c f Hc Hf.
    destruct (exec_ready_col md' c Hr') as [col Hcol].
    { rewrite elem_of_app. by right. }
    rewrite Hcol. f_equal.
    apply (column_from_cells md' c); [apply Hr' | done | |].
    - by rewrite !length_fmap, E'.
    - intros i idx x Hi Hx. rewrite E' in Hi.
      rewrite !list_lookup_fmap in Hx.
      destruct (rows !! i) as [r|] eqn:Hri; [|done].
      injection Hx as <-. by apply (Hf i idx r). }
  split; [by rewrite length_fmap, E'|].
  split; [rewrite Hsame by closed_dec; rewrite Hp; f_equal; symmetry;
          apply Hmap; intros r; by rewrite (proj1 (execute_period_inputs s r))|].
  split; [rewrite Hsame by closed_dec; rewrite Hv; f_equal; symmetry;
          apply Hmap; intros r;
          by rewrite (proj1 (proj2 (execute_period_inputs s r)))|].
  split; [rewrite Hsame by closed_dec; rewrite Hq; f_equal; symmetry;
          apply Hmap; intros r;
          by rewrite (proj2 (proj2 (execute_period_inputs s r)))|].
  split; [|split].
  - apply (Hcol "executed_quantity" (λ p, Fin (executed_quantity p)));
      [closed_dec|]. intros i idx r Hi Hri. by apply (Hexec i idx r).
  - apply (Hcol "executed_price" (λ p, cell (executed_price p)));
      [closed_dec|]. intros i idx r Hi Hri. by apply (Hexec i idx r).
  - apply (Hcol "expected_price" (λ p, cell (expected_price p)));
      [closed_dec|]. intros i idx r Hi Hri. by apply (Hexec i idx r).
Qed.

Lemma execute_period_bounds s r :
  let p := execute_period s r in
  (0 < row_order r →
     executed_quantity p ≤ row_order r ∧ executed_quantity p ≤ row_volume r
     ∧ (row_order r ≤ row_volume r → executed_quantity p = row_order r)
     ∧ executed_price p = Some (row_price r * (1 + s))
     ∧ expected_price p = Some (row_price r))
  ∧ (¬ 0 < row_order r →
     executed_quantity p = 0 ∧ executed_price p = None ∧ expected_price p = None).
Proof.
  unfold execute_period. split; intros Hq.
  - rewrite decide_True by done. cbn. case_decide as Hv.
    + split; [by apply Qclt_le_weak|]. split; [apply Qcle_refl|].
      split; [|done]. intros Hle. by destruct (Qclt_not_le _ _ Hv).
    + split; [apply Qcle_refl|]. split; [by apply Qcnot_lt_le | done].
  - by rewrite decide_False by done.
Qed.

(** X4.  When the backtester is built on a frame that holds finite prices,
    volumes and order quantities and is run on that same frame (the wiring
    of [main]), [run] returns normally, the three input columns are
    unchanged, and the working frame holds for every period exactly
    [execute_period] of its inputs.  So a period with a positive order gets
    the prices [price] and [price * (1 + slippage)] and a quantity that
    exceeds neither the order nor the volume and equals the order when the
    volume covers it; every other period gets quantity 0 and no prices. *)
Theorem X4_run_records (df : DataFrame) (s : Qc) (rows : list order_row) :
  holds_rows df rows →
  ∃ md' ps, run (Backtester_init df (Fin s)) df
            = (Return md', mkBacktester md' (Fin s))
    ∧ index md' = index df
    ∧ records md' ps
    ∧ Forall2 (λ r p,
        price p = row_price r ∧ volume p = row_volume r
        ∧ order_quantity p = row_order r
        ∧ (0 < row_order r →
             executed_quantity p ≤ row_order r
             ∧ executed_quantity p ≤ row_volume r
             ∧ (row_order r ≤ row_volume r → executed_quantity p = row_order r)
             ∧ executed_price p = Some (row_price r * (1 + s))
             ∧ expected_price p = Some (row_price r))
        ∧ (¬ 0 < row_order r →
             executed_quantity p = 0 ∧ executed_price p = None
             ∧ expected_price p = None)) rows ps.
Proof.
  intros Hrows.
  destruct (run_rows_records df s rows Hrows) as (md' & Hrun & Hix & _ & Hrec).
  exists md', (execute_period s <$> rows).
  split; [done|]. split; [done|]. split; [done|].
  apply Forall2_fmap_r, Forall_Forall2_diag, list.Forall_forall.
  intros r _. unfold compose.
  destruct (execute_period_inputs s r) as (-> & -> & ->).
  destruct (execute_period_bounds s r) as [Hpos Hzero].
  split; [done|]. split; [done|]. split; [done|]. split; [exact Hpos | exact Hzero].
Qed.

Lemma X4_run_records_witness :
  ∃ md' ps, run (Backtester_init (rows_frame capped_rows) (Fin (Q2Qc (1 # 10))))
                (rows_frame capped_rows)
            = (Return md', mkBacktester md' (Fin (Q2Qc (1 # 10))))
    ∧ index md' = index (rows_frame capped_rows)
    ∧ records md' ps
    ∧ Forall2 (λ r p,
        price p = row_price r ∧ volume p = row_volume r
        ∧ order_quantity p = row_order r
        ∧ (0 < row_order r →
             executed_quantity p ≤ row_order r
             ∧ executed_quantity p ≤ row_volume r
             ∧ (row_order r ≤ row_volume r → executed_quantity p = row_order r)
             ∧ executed_price p = Some (row_price r * (1 + Q2Qc (1 # 10)))
             ∧ expected_price p = Some (row_price r))
        ∧ (¬ 0 < row_order r →
             executed_quantity p = 0 ∧ executed_price p = None
             ∧ expected_price p = None)) capped_rows ps.
Proof.
  apply (X4_run_records (rows_frame capped_rows) (Q2Qc (1 # 10)) capped_rows).
  apply (bool_decide_unpack _). vm_compute. exact I.
Defined.

(** ** Metrics after the wiring of [main] *)

Lemma run_on_itself_records df s rows :
  holds_rows df rows →
  records (market_data (run_on_itself df s)) (execute_period s <$> rows).
Proof.
  intros Hrows.
  destruct (run_rows_records df s rows Hrows) as (md' & Hrun & _ & _ & Hrec).
  unfold run_on_itself. by rewrite Hrun.
Qed.

Lemma is_filled_execute s r : is_filled (execute_period s r) ↔ can_fill r.
Proof.
  unfold is_filled, can_fill, execute_period. case_decide as Hq; cbn.
  - case_decide as Hv.
    + split; [by intros [? _] | intros [_ ?]; split; [done | by eexists]].
    + split.
      * intros _. split; [done|]. apply Qclt_le_trans with (row_order r); [done|].
        by apply Qcnot_lt_le.
      * intros _. split; [done | by eexists].
  - split; [|by intros [? _]]. intros [H0 _]. by apply Qclt_not_eq in H0.
Qed.

Lemma filled_execute_nil s rows :
  filled (execute_period s <$> rows) = [] ↔ Forall (λ r, ¬ can_fill r) rows.
Proof.
  unfold filled. induction rows as [|r rows IH]; [done|].
  rewrite fmap_cons, list.Forall_cons, <- IH.
  destruct (decide (can_fill r)) as [Hc|Hc].
  - rewrite filter_cons_True by (by apply is_filled_execute). split; [done | tauto].
  - rewrite filter_cons_False by (by rewrite is_filled_execute). tauto.
Qed.

Lemma calculate_metrics_unfilled self ps benchmark_type :
  records (market_data self) ps →
  filled ps = [] →
  calculate_metrics self benchmark_type = Return (mkMetrics None None (Fin 0)).
Proof.
  intros Hrec Hnil. unfold calculate_metrics.
  rewrite (executed_rows_records _ ps Hrec). cbn [mbind res_bind].
  by rewrite (empty_rows_records _ ps Hrec), bool_decide_eq_true_2.
Qed.

(** X5.  With the wiring of [main] on finite data, [calculate_metrics]
    never raises, for any benchmark type.  The cost and the slippage are
    [None] exactly when no period has both a positive order and a positive
    volume, and the fill rate is then 0. *)
Theorem X5_metrics_defined_iff_fill (df : DataFrame) (s : Qc)
    (rows : list order_row) (benchmark_type : string) :
  holds_rows df rows →
  ∃ m, calculate_metrics (run_on_itself df s) benchmark_type = Return m
    ∧ (execution_cost m = None ↔ Forall (λ r, ¬ can_fill r) rows)
    ∧ (slippage m = None ↔ Forall (λ r, ¬ can_fill r) rows)
    ∧ (Forall (λ r, ¬ can_fill r) rows → fill_rate m = Fin 0).
Proof.
  intros Hrows. pose proof (run_on_itself_records df s rows Hrows) as Hrec.
  destruct (decide (filled (execute_period s <$> rows) = [])) as [Hnil|Hne].
  - rewrite (calculate_metrics_unfilled _ _ _ Hrec Hnil).
    eexists. split; [done|]. cbn [execution_cost slippage fill_rate].
    apply filled_execute_nil in Hnil. by repeat split.
  - rewrite (calculate_metrics_filled _ _ _ Hrec Hne).
    rewrite (benchmark_price_records _ _ _ Hrec). cbn [mbind res_bind].
    eexists. split; [done|]. cbn [execution_cost slippage fill_rate].
    assert (¬ Forall (λ r, ¬ can_fill r) rows) as Hsome
      by (by rewrite <- filled_execute_nil).
    by repeat split.
Qed.

Lemma X5_metrics_defined_iff_fill_witness :
  ∃ m, calculate_metrics (run_on_itself (rows_frame capped_rows) (Q2Qc (1 # 10)))
                         "VWAP" = Return m
    ∧ (execution_cost m = None ↔ Forall (λ r, ¬ can_fill r) capped_rows)
    ∧ (slippage m = None ↔ Forall (λ r, ¬ can_fill r) capped_rows)
    ∧ (Forall (λ r, ¬ can_fill r) capped_rows → fill_rate m = Fin 0).
Proof.
  apply (X5_metrics_defined_iff_fill (rows_frame capped_rows) (Q2Qc (1 # 10))
           capped_rows "VWAP").
  apply (bool_decide_unpack _). vm_compute. exact I.
Defined.

(** ** Repeated runs *)

(** X8.  [run] never clears the execution columns.  After a run on schedule
    [A] and a second run on schedule [B] (both on the index of the market
    series), a period whose order in [B] is not positive still carries what
    the first run recorded for it: if its order in [A] was positive, its
    executed quantity and prices are those of [A], although [B] orders
    nothing there. *)
Theorem X8_second_run_keeps_fills (market A B : DataFrame) (s : num)
    (qa qb : list num) :
  wf_frame market →
  is_Some (columns market !! "price") →
  is_Some (columns market !! "volume") →
  index A = index market → index B = index market →
  columns A !! "order_quantity" = Some qa → length qa = length (index A) →
  columns B !! "order_quantity" = Some qb → length qb = length (index B) →
  ∃ md2, run (run (Backtester_init market s) A).2 B
         = (Return md2, mkBacktester md2 s)
    ∧ ∀ i idx a b p v,
        index market !! i = Some idx →
        qa !! i = Some a → qb !! i = Some b →
        at_get market idx "price" = Return p →
        at_get market idx "volume" = Return v →
        fgt a (Fin 0) = true → fgt b (Fin 0) = false →
        at_get md2 idx "expected_price" = Return p
        ∧ at_get md2 idx "executed_price" = Return (fmul p (fadd (Fin 1) s))
        ∧ at_get md2 idx "executed_quantity" = Return (py_min a v).
Proof.
  intros Hwf Hprice Hvol HA HB Hqa Hla Hqb Hlb.
  pose proof (init_exec_ready market s Hwf Hprice Hvol) as Hr0.
  destruct (run_cells (Backtester_init market s) A qa Hr0)
    as (md1 & Hrun1 & Hr1 & E1 & _ & _ & Hcells1);
    [rewrite HA; apply Hwf | by intros idx; rewrite HA | done..|].
  rewrite init_index in E1. rewrite Hrun1. cbn [snd].
  destruct (run_cells (mkBacktester md1 s) B qb Hr1)
    as (md2 & Hrun2 & _ & _ & _ & _ & Hcells2);
    [rewrite HB; apply Hwf
    | intros idx; cbn [market_data]; by rewrite HB, E1 | done..|].
  exists md2. split; [done|].
  intros i idx a b p v Hi Ha Hb Hp Hv Hapos Hbzero.
  specialize (Hcells2 i idx b). rewrite HB, Hbzero in Hcells2.
  rewrite !(Hcells2 Hi Hb).
  specialize (Hcells1 i idx a). rewrite HA, Hapos in Hcells1.
  apply (Hcells1 Hi Ha); by rewrite init_at_get_other by closed_dec.
Qed.

Lemma X8_second_run_keeps_fills_witness :
  ∃ md2, run (run (Backtester_init scenario_market tenth)
                  (schedule_frame [qz 3; qz 3; qz 3])).2
             (schedule_frame [qz 0; qz 2; qz 0])
         = (Return md2, mkBacktester md2 tenth)
    ∧ ∀ i idx a b p v,
        index scenario_market !! i = Some idx →
        [qz 3; qz 3; qz 3] !! i = Some a → [qz 0; qz 2; qz 0] !! i = Some b →
        at_get scenario_market idx "price" = Return p →
        at_get scenario_market idx "volume" = Return v →
        fgt a (Fin 0) = true → fgt b (Fin 0) = false →
        at_get md2 idx "expected_price" = Return p
        ∧ at_get md2 idx "executed_price" = Return (fmul p (fadd (Fin 1) tenth))
        ∧ at_get md2 idx "executed_quantity" = Return (py_min a v).
Proof.
  apply (X8_second_run_keeps_fills scenario_market
           (schedule_frame [qz 3; qz 3; qz 3]) (schedule_frame [qz 0; qz 2; qz 0])
           tenth [qz 3; qz 3; qz 3] [qz 0; qz 2; qz 0]).
  - apply (bool_decide_unpack _). vm_compute. exact I.
  - apply (bool_decide_unpack _). vm_compute. exact I.
  - apply (bool_decide_unpack _). vm_compute. exact I.
  - reflexivity.
  - reflexivity.
  - reflexivity.
  - reflexivity.
  - reflexivity.
  - reflexivity.
Defined.

Lemma frame_ext (df1 df2 : DataFrame) :
  wf_frame df1 → wf_frame df2 →
  index df1 = index df2 →
  (∀ c, is_Some (columns df1 !! c) ↔ is_Some (columns df2 !! c)) →
  (∀ idx c, idx ∈ index df1 → is_Some (columns df1 !! c) →
            at_get df1 idx c = at_get df2 idx c) →
  df1 = df2.
Proof.
  intros Hwf1 Hwf2 Hix Hdom Hcells.
  destruct df1 as [ix1 cols1], df2 as [ix2 cols2]. cbn in *. subst ix2.
  f_equal. apply map_eq. intros c.
  destruct (cols1 !! c) as [s1|] eqn:H1.
  - destruct (proj1 (Hdom c)) as [s2 H2]; [by rewrite H1|].
    rewrite H2. f_equal.
    apply (column_from_cells (mkDF ix1 cols1) c s1 s2); [done | done | |].
    + by apply (proj2 Hwf2 c s2).
    + intros i idx x Hi Hx. rewrite Hcells.
      * by apply (at_get_of_position (mkDF ix1 cols2) idx c i s2 x);
          [apply Hwf2 | ..].
      * by eapply list_elem_of_lookup_2.
      * by rewrite H1.
  - destruct (cols2 !! c) as [s2|] eqn:H2; [|done].
    destruct (proj2 (Hdom c)) as [? ?]; [by rewrite H2 | congruence].
Qed.

Lemma at_get_same_column df1 df2 idx c :
  index df1 = index df2 → columns df1 !! c = columns df2 !! c →
  at_get df1 idx c = at_get df2 idx c.
Proof. intros Hix Hc. unfold at_get. by rewrite Hix, Hc. Qed.

(** X9.  Running the same schedule again changes nothing: for a schedule
    with unique labels that are all labels of the working frame, a second
    [run] on it returns the very frame the first one returned. *)
Theorem X9_run_idempotent (self : Backtester) (orders : DataFrame) (qs : list num) :
  exec_ready (market_data self) →
  NoDup (index orders) →
  (∀ idx, idx ∈ index orders → idx ∈ index (market_data self)) →
  columns orders !! "order_quantity" = Some qs →
  length qs = length (index orders) →
  ∃ md', run self orders = (Return md', mkBacktester md' (slippage_factor self))
    ∧ run (run self orders).2 orders
      = (Return md', mkBacktester md' (slippage_factor self)).
Proof.
  intros Hr0 Hnd Hknown Hqs Hlen.
  destruct (run_cells self orders qs Hr0 Hnd Hknown Hqs Hlen)
    as (md1 & Hrun1 & Hr1 & E1 & Hcols1 & Hout1 & Hcells1).
  exists md1. split; [done|]. rewrite Hrun1. cbn [snd].
  destruct (run_cells (mkBacktester md1 (slippage_factor self)) orders qs Hr1 Hnd)
    as (md2 & Hrun2 & Hr2 & E2 & Hcols2 & Hout2 & Hcells2);
    [intros idx; cbn [market_data]; rewrite E1; apply Hknown | done..|].
  cbn [market_data slippage_factor] in *.
  assert (md2 = md1) as ->; [|done].
  apply frame_ext; [apply Hr2 | apply Hr1 | done | |].
  - intros c. destruct (decide (c ∈ exec_columns)) as [Hc|Hc].
    + split; intros _; apply exec_ready_col; try done;
        rewrite elem_of_app; by right.
    + by rewrite Hcols2.
  - intros idx c Hin _.
    destruct (decide (c ∈ exec_columns)) as [Hc|Hc];
      [|by apply at_get_same_column; [|apply Hcols2]].
    destruct (decide (idx ∈ index orders)) as [Ho|Ho]; [|by apply Hout2].
    apply list_elem_of_lookup in Ho as [i Hi].
    destruct (lookup_lt_is_Some_2 qs i) as [q Hq].
    { rewrite Hlen. by eapply lookup_lt_Some. }
    specialize (Hcells1 i idx q Hi Hq). specialize (Hcells2 i idx q Hi Hq).
    destruct (fgt q (Fin 0)); [|by apply Hcells2].
    rewrite E2 in Hin.
    destruct (at_get_total md1 idx "price") as (? & ? & p & _ & _ & _ & Hp);
      [apply Hr1 | done | exec_col |].
    destruct (at_get_total md1 idx "volume") as (? & ? & v & _ & _ & _ & Hv);
      [apply Hr1 | done | exec_col |].
    destruct (Hcells2 p v Hp Hv) as (H21 & H22 & H23).
    destruct (Hcells1 p v) as (H11 & H12 & H13).
    { rewrite <- Hp. symmetry.
      apply at_get_same_column; [done | apply Hcols1; closed_dec]. }
    { rewrite <- Hv. symmetry.
      apply at_get_same_column; [done | apply Hcols1; closed_dec]. }
    unfold exec_columns in Hc. rewrite !elem_of_cons in Hc.
    destruct Hc as [->|[->|[->|Hc]]]; [congruence.. |].
    by apply elem_of_nil in Hc.
Qed.

Lemma X9_run_idempotent_witness :
  ∃ md', run (Backtester_init scenario_market tenth)
             (schedule_frame [qz 3; qz 0; qz 7])
         = (Return md', mkBacktester md' tenth)
    ∧ run (run (Backtester_init scenario_market tenth)
               (schedule_frame [qz 3; qz 0; qz 7])).2
          (schedule_frame [qz 3; qz 0; qz 7])
      = (Return md', mkBacktester md' tenth).
Proof.
  apply (X9_run_idempotent (Backtester_init scenario_market tenth)
           (schedule_frame [qz 3; qz 0; qz 7]) [qz 3; qz 0; qz 7]).
  - apply init_exec_ready.
    + apply (bool_decide_unpack _). vm_compute. exact I.
    + apply (bool_decide_unpack _). vm_compute. exact I.
    + apply (bool_decide_unpack _). vm_compute. exact I.
  - apply (bool_decide_unpack _). vm_compute. exact I.
  - intros idx Hidx. exact Hidx.
  - reflexivity.
  - reflexivity.
Defined.

(** ** Missing columns *)

(** X10.  A schedule frame without an ['order_quantity'] column makes [run]
    raise the [KeyError] of that column at its first row, before anything is
    written: the backtester is left exactly as it was.  Only a schedule
    without any row is accepted, and then nothing happens. *)
Theorem X10_schedule_without_orders (self : Backtester) (orders : DataFrame) :
  columns orders !! "order_quantity" = None →
  run self orders
  = (if decide (index orders = [])
     then Return (market_data self)
     else Raise (KeyError (Col "order_quantity")),
     self).
Proof.
  intros Hnone. destruct self as [md s]. unfold run, iterrows.
  cbn [market_data slippage_factor].
  destruct (index orders) as [|idx ix]; [done|].
  rewrite decide_False by done. cbn [imap for_each].
  unfold mbind, M_bind, run_row, lift_res, row_get.
  by rewrite row_at_lookup, Hnone.
Qed.

Lemma X10_schedule_without_orders_witness :
  run (Backtester_init scenario_market tenth) scenario_market
  = (if decide (index scenario_market = [])
     then Return (market_data (Backtester_init scenario_market tenth))
     else Raise (KeyError (Col "order_quantity")),
     Backtester_init scenario_market tenth).
Proof.
  apply (X10_schedule_without_orders (Backtester_init scenario_market tenth)
           scenario_market).
  reflexivity.
Defined.

Lemma run_row_no_volume s idx row q md :
  columns md !! "volume" = None →
  row !! "order_quantity" = Some q →
  run_row s (idx, row) md
  = (if fgt q (Fin 0) then Raise (KeyError (Col "volume")) else Return (), md).
Proof.
  intros Hv Hq. unfold run_row, lift_res, row_get, read_at, mbind, M_bind.
  rewrite Hq. destruct (fgt q (Fin 0)); [|done].
  unfold at_get. by rewrite Hv.
Qed.

Lemma run_loop_no_volume s (l : list (Z * gmap string num)) md :
  columns md !! "volume" = None →
  Forall (λ r, is_Some (r.2 !! "order_quantity")) l →
  for_each l (run_row s) md
  = (if decide (Exists (λ r, ordered r = true) l)
     then Raise (KeyError (Col "volume")) else Return (), md).
Proof.
  intros Hv. induction l as [|[idx row] l IH]; intros Hall.
  - rewrite decide_False; [done|]. by intros ?%Exists_nil.
  - apply Forall_cons_1 in Hall as [[q Hq] Hall]. cbn [snd] in Hq.
    cbn [for_each]. unfold mbind, M_bind.
    rewrite (run_row_no_volume s idx row q) by done.
    destruct (fgt q (Fin 0)) eqn:Hpos.
    + rewrite decide_True; [done|]. apply Exists_cons_hd.
      unfold ordered. cbn [snd]. by rewrite Hq.
    + rewrite (IH Hall).
      destruct (decide (Exists (λ r, ordered r = true) l)) as [He|He].
      * rewrite decide_True; [done | by apply Exists_cons_tl].
      * rewrite decide_False; [done|].
        intros [Hhd|Htl]%List.Exists_cons; [|done].
        unfold ordered in Hhd. cbn [snd] in Hhd. rewrite Hq in Hhd. congruence.
Qed.

(** X11.  On a backtester whose market data has no ['volume'] column, [run]
    raises the [KeyError] of ['volume'] as soon as the schedule has a row
    with a positive order quantity, and any other schedule is accepted; in
    both cases nothing is written to the working frame. *)
Theorem X11_market_without_volume (self : Backtester) (orders : DataFrame)
    (qs : list num) :
  columns (market_data self) !! "volume" = None →
  columns orders !! "order_quantity" = Some qs →
  length qs = length (index orders) →
  run self orders
  = (if decide (Exists (λ q, fgt q (Fin 0) = true) qs)
     then Raise (KeyError (Col "volume"))
     else Return (market_data self),
     self).
Proof.
  intros Hv Hqs Hlen. destruct self as [md s]. unfold run.
  cbn [market_data slippage_factor] in *.
  rewrite run_loop_no_volume; [|done|].
  2:{ apply list.Forall_forall. intros r Hr.
      by apply (iterrows_order_quantity orders qs). }
  assert (Exists (λ r, ordered r = true) (iterrows orders)
          ↔ Exists (λ q, fgt q (Fin 0) = true) qs) as Hiff.
  { rewrite !list.Exists_exists. split.
    - intros ([idx row] & (i & Hi & ->)%elem_of_iterrows & Ho).
      unfold ordered in Ho. cbn [snd] in Ho.
      rewrite row_at_lookup, Hqs in Ho. cbn in Ho.
      destruct (qs !! i) as [q|] eqn:Hq; [|done].
      exists q. split; [by eapply list_elem_of_lookup_2 | done].
    - intros (q & Hq & Hpos). apply list_elem_of_lookup in Hq as [i Hi].
      destruct (lookup_lt_is_Some_2 (index orders) i) as [idx Hidx].
      { rewrite <- Hlen. by eapply lookup_lt_Some. }
      exists (idx, row_at orders i). split.
      + apply elem_of_iterrows. by exists i.
      + unfold ordered. cbn [snd]. by rewrite row_at_lookup, Hqs; cbn; rewrite Hi. }
  destruct (decide (Exists (λ r, ordered r = true) (iterrows orders))) as [He|He].
  - rewrite decide_True; [done | by apply Hiff].
  - rewrite decide_False; [done | by rewrite <- Hiff].
Qed.

Lemma X11_market_without_volume_witness :
  run (Backtester_init (schedule_frame [qz 1; qz 2]) tenth)
      (schedule_frame [qz 0; qz 2])
  = (if decide (Exists (λ q, fgt q (Fin 0) = true) [qz 0; qz 2])
     then Raise (KeyError (Col "volume"))
     else Return (market_data (Backtester_init (schedule_frame [qz 1; qz 2]) tenth)),
     Backtester_init (schedule_frame [qz 1; qz 2]) tenth).
Proof.
  apply (X11_market_without_volume
           (Backtester_init (schedule_frame [qz 1; qz 2]) tenth)
           (schedule_frame [qz 0; qz 2]) [qz 0; qz 2]).
  - reflexivity.
  - reflexivity.
  - reflexivity.
Defined.

(** ** From the generated series to the metrics *)

Lemma twap_schedule_quantities N t a b :
  twap_schedule N t a b = Fin <$> twap_quantities N t a b.
Proof.
  unfold twap_schedule, twap_quantities. rewrite <- list_fmap_compose.
  apply list_fmap_ext. intros i x _. cbn. by case_decide.
Qed.

Lemma generate_orders_in_range md (N : nat) (t : Qc) (a b : Z) :
  index md = seqZ 0 (Z.of_nat N) →
  (b < a ∨ 0 ≤ a ∧ b < Z.of_nat N)%Z →
  generate_orders (mkTWAP (Fin t) a b) md
  = Return (mkDF (index md)
                 (<["order_quantity" := twap_schedule N t a b]> (columns md))).
Proof.
  intros Hix Hab. rewrite generate_orders_foldl. unfold setitem_scalar.
  cbn [start_index end_index]. rewrite twap_loop_present.
  - rewrite Hix, length_seqZ, Nat2Z.id, twap_column by done. by rewrite <- Hix.
  - intros idx. unfold py_range. rewrite Hix, !elem_of_seqZ. lia.
Qed.

Lemma make_rows_fields (ps vs qs : list Qc) :
  length vs = length ps → length qs = length ps →
  row_price <$> make_rows ps vs qs = ps
  ∧ row_volume <$> make_rows ps vs qs = vs
  ∧ row_order <$> make_rows ps vs qs = qs
  ∧ length (make_rows ps vs qs) = length ps.
Proof.
  unfold make_rows. revert vs qs.
  induction ps as [|p ps IH]; intros [|v vs] [|q qs] Hv Hq; try done.
  cbn [zip zip_with fmap list_fmap length].
  destruct (IH vs qs) as (-> & -> & -> & ->); [by injection Hv | by injection Hq|].
  done.
Qed.

Lemma main_metrics_rows market st df s rows benchmark_type :
  generate_orders st market = Return df →
  holds_rows df rows →
  main_metrics market st (Fin s) benchmark_type
  = calculate_metrics (run_on_itself df s) benchmark_type.
Proof.
  intros Hgen Hrows. unfold main_metrics, run_on_itself.
  rewrite Hgen. cbn [mbind res_bind].
  destruct (run_rows_records df s rows Hrows) as (md' & -> & _). done.
Qed.

Lemma generated_holds_rows (N : nat) (ts : list num) (i : Qc) (cs vols : list Qc)
    (t : Qc) (a b : Z) :
  length ts = N → length cs = N → length vols = N →
  let market := generate_synthetic_data N ts (Fin <$> cs) (Fin <$> vols) (Fin i) in
  holds_rows
    (mkDF (index market)
          (<["order_quantity" := twap_schedule N t a b]> (columns market)))
    (make_rows (floored_walk i cs) vols (twap_quantities N t a b)).
Proof.
  intros Hts Hcs Hvols market.
  assert (length (floored_walk i cs) = N) as Hwalk.
  { rewrite <- Hcs. clear. revert i.
    induction cs as [|c cs IH]; intros i; [done|]. cbn. by rewrite IH. }
  assert (length (twap_quantities N t a b) = N) as Hq
    by (unfold twap_quantities; by rewrite length_fmap, length_seqZ, Nat2Z.id).
  destruct (make_rows_fields (floored_walk i cs) vols (twap_quantities N t a b))
    as (Hp & Hv & Ho & Hlen); [congruence.. |].
  unfold holds_rows, market, generate_synthetic_data. cbn [index columns].
  rewrite price_walk_finite, twap_schedule_quantities.
  split; [|split; [|split; [|split]]].
  - split; [apply NoDup_seqZ|]. cbn [index columns].
    rewrite length_seqZ, Nat2Z.id.
    repeat apply map_Forall_insert_2; rewrite ?length_fmap; try done;
      apply map_Forall_empty.
  - by rewrite length_seqZ, Nat2Z.id, Hlen.
  - rewrite lookup_insert_ne, lookup_insert_ne, lookup_insert_eq by done.
    by rewrite (list_fmap_compose row_price Fin), Hp.
  - rewrite !lookup_insert_ne, lookup_insert_eq by done.
    by rewrite (list_fmap_compose row_volume Fin), Hv.
  - rewrite lookup_insert_eq.
    by rewrite (list_fmap_compose row_order Fin), Ho.
Qed.

(** X13.  The whole pipeline of [main] on generated data.  Whatever finite
    draws the generator makes ([periods] price changes and volumes), for any
    finite total quantity and slippage factor and any window that lies
    inside the series or is empty, generating the schedule, building the
    backtester on it, running it and computing the metrics raises nothing:
    the metrics are returned, with a cost and a slippage that are both
    [None] or both defined, and with fill rate 0 when they are [None]. *)
Theorem X13_generated_pipeline (N : nat) (ts : list num) (i : Qc)
    (cs vols : list Qc) (t s : Qc) (a b : Z) (benchmark_type : string) :
  length ts = N → length cs = N → length vols = N →
  (b < a ∨ 0 ≤ a ∧ b < Z.of_nat N)%Z →
  let market := generate_synthetic_data N ts (Fin <$> cs) (Fin <$> vols) (Fin i) in
  ∃ m, main_metrics market (mkTWAP (Fin t) a b) (Fin s) benchmark_type = Return m
    ∧ (execution_cost m = None ↔ slippage m = None)
    ∧ (slippage m = None → fill_rate m = Fin 0).
Proof.
  intros Hts Hcs Hvols Hab market.
  pose proof (generated_holds_rows N ts i cs vols t a b Hts Hcs Hvols) as Hrows.
  cbv zeta in Hrows. fold market in Hrows.
  remember (make_rows (floored_walk i cs) vols (twap_quantities N t a b))
    as rows eqn:Erows.
  rewrite (main_metrics_rows market _ _ s rows benchmark_type
             (generate_orders_in_range market N t a b eq_refl Hab) Hrows).
  pose proof (run_on_itself_records _ s rows Hrows) as Hrec.
  destruct (decide (filled (execute_period s <$> rows) = [])) as [Hnil|Hne].
  - rewrite (calculate_metrics_unfilled _ _ _ Hrec Hnil).
    eexists. by repeat split.
  - rewrite (calculate_metrics_filled _ _ _ Hrec Hne).
    rewrite (benchmark_price_records _ _ _ Hrec). cbn [mbind res_bind].
    eexists. by repeat split.
Qed.

Lemma X13_generated_pipeline_witness :
  let market :=
    generate_synthetic_data 60 (replicate 60 (Fin 0))
      (Fin <$> replicate 60 (Qc_of_Z 1)) (Fin <$> replicate 60 (Qc_of_Z 500))
      (Fin (Qc_of_Z 100)) in
  ∃ m, main_metrics market (mkTWAP (Fin (Qc_of_Z 3000)) 10 50)
                    (Fin (Q2Qc (1 # 1000))) "VWAP" = Return m
    ∧ (execution_cost m = None ↔ slippage m = None)
    ∧ (slippage m = None → fill_rate m = Fin 0).
Proof.
  apply (X13_generated_pipeline 60 (replicate 60 (Fin 0)) (Qc_of_Z 100)
           (replicate 60 (Qc_of_Z 1)) (replicate 60 (Qc_of_Z 500))
           (Qc_of_Z 3000) (Q2Qc (1 # 1000)) 10 50 "VWAP").
  - reflexivity.
  - reflexivity.
  - reflexivity.
  - right. lia.
Defined.

(** ** The frame returned by [run] *)

(** X15.  [run] returns no copy.  On a backtester whose working frame
    exists, the value returned is the reference [self.market_data] itself
    when the loop finishes, nothing is allocated, no other object of the
    store is changed, and the object holds what [run] computes from it,
    also when the loop raises part way.  So the frame a caller got from an
    earlier [run] is the object a later [run] writes to. *)
Theorem X15_run_returns_working_frame (self : BacktesterRef) (df_orders : ref)
    (h : store) :
  (frame_ref self < length h)%nat →
  let out := run (mkBacktester (deref h (frame_ref self)) (slippage_of self))
                 (deref h df_orders) in
  let result := run_ref self df_orders h in
  (∀ r, result.1 = Return r → r = frame_ref self)
  ∧ (raises result.1 ↔ raises out.1)
  ∧ length result.2 = length h
  ∧ (∀ l, l ≠ frame_ref self → result.2 !! l = h !! l)
  ∧ deref result.2 (frame_ref self) = market_data out.2.
Proof.
  intros Hr out result. subst result.
  rewrite (run_ref_eq self df_orders h Hr). fold out. cbn [fst snd].
  split; [|split; [|split; [|split]]].
  - intros r. destruct out.1; cbn; [done | by intros [= <-]].
  - unfold raises. destruct out.1; cbn; [|split; intros [? [=]]].
    split; intros _; by eexists.
  - apply length_insert.
  - intros l Hl. by apply list_lookup_insert_ne.
  - by apply deref_insert.
Qed.

Lemma X15_run_returns_working_frame_witness :
  let self := mkRef 1 tenth in
  let h := [scenario_orders; market_data (Backtester_init scenario_orders tenth)] in
  let out := run (mkBacktester (deref h (frame_ref self)) (slippage_of self))
                 (deref h 0%nat) in
  let result := run_ref self 0%nat h in
  (∀ r, result.1 = Return r → r = frame_ref self)
  ∧ (raises result.1 ↔ raises out.1)
  ∧ length result.2 = length h
  ∧ (∀ l, l ≠ frame_ref self → result.2 !! l = h !! l)
  ∧ deref result.2 (frame_ref self) = market_data out.2.
Proof.
  apply (X15_run_returns_working_frame (mkRef 1 tenth) 0%nat
           [scenario_orders; market_data (Backtester_init scenario_orders tenth)]).
  cbn. lia.
Defined.
